(** * PrC dashboard: loading, joining, filtering and aggregation

    A shallow embedding of [streamlit_app.py].  A data frame is a list of
    rows in frame order, a nullable cell is an [option] ([None] is
    NaN / NaT), numeric cells are exact integers: sums are exact, as
    float64 sums are for whole numbers of ordinary size.  Three library
    calls are parameters: the two pandas cell parsers ([pd.to_numeric] and
    [pd.to_datetime], both called with [errors='coerce']), total functions
    from the text of a cell to a nullable value, and the sort behind
    [sort_values], whose order among equal keys is not fixed.  The dtype
    of the Month column, integer or float64, is kept beside the frame,
    since indexing a list with a float raises. *)

From Stdlib Require Import List ZArith Bool String Ascii Lia.
From Stdlib Require Import Sorted Permutation RelationClasses Morphisms.
From Stdlib Require Import Orders OrdersEx.
Import ListNotations.

Local Open Scope string_scope.
Local Open Scope list_scope.
Local Open Scope Z_scope.

(** ** Cells and Python values *)

(** What a failing statement of the script raises. *)
Inductive exn : Type :=
| ValueError
| IndexError
| TypeError
| StreamlitAPIException.

Inductive outcome (A : Type) : Type :=
| Ok (a : A)
| Raise (e : exn).
Arguments Ok {A} a.
Arguments Raise {A} e.

Definition bind {A B : Type} (x : outcome A) (f : A -> outcome B) : outcome B :=
  match x with
  | Ok a => f a
  | Raise e => Raise e
  end.

Notation "x <- c1 ;; c2" := (bind c1 (fun x => c2))
  (at level 61, c1 at next level, right associativity).

(** A timestamp as far as the script looks at it: [.dt.year], [.dt.month]. *)
Record date : Type := mkDate { year : Z; month : Z; day : Z }.

(** [pd.to_datetime] only produces calendar dates. *)
Definition valid_datetime (to_datetime : string -> option date) : Prop :=
  forall s d, to_datetime s = Some d -> 1 <= month d <= 12.

(** Comparison of a nullable numeric cell with a number: NaN compares
    false both ways. *)
Definition cell_ge (c : option Z) (n : Z) : bool :=
  match c with
  | Some v => n <=? v
  | None => false
  end.

Definition cell_le (c : option Z) (n : Z) : bool :=
  match c with
  | Some v => v <=? n
  | None => false
  end.

(** [Series.isin(values)] on a cell; [values] holds strings only. *)
Definition isin (c : option string) (values : list string) : bool :=
  match c with
  | Some s => existsb (String.eqb s) values
  | None => false
  end.

(** [Series.sum()]: nulls are skipped, the empty sum is 0. *)
Fixpoint sum_skipna (col : list (option Z)) : Z :=
  match col with
  | [] => 0
  | Some v :: col' => v + sum_skipna col'
  | None :: col' => sum_skipna col'
  end.

(** [Series.dropna()]. *)
Fixpoint dropna {A : Type} (col : list (option A)) : list A :=
  match col with
  | [] => []
  | Some v :: col' => v :: dropna col'
  | None :: col' => dropna col'
  end.

(** [Series.min()] and [Series.max()]: nulls are skipped, and the result
    is NaN when nothing is left. *)
Fixpoint col_min (col : list (option Z)) : option Z :=
  match col with
  | [] => None
  | c :: col' =>
      match c, col_min col' with
      | Some v, Some w => Some (Z.min v w)
      | Some v, None => Some v
      | None, m => m
      end
  end.

Fixpoint col_max (col : list (option Z)) : option Z :=
  match col with
  | [] => None
  | c :: col' =>
      match c, col_max col' with
      | Some v, Some w => Some (Z.max v w)
      | Some v, None => Some v
      | None, m => m
      end
  end.

(** [int(x)] on a numeric cell: [int(nan)] raises [ValueError]. *)
Definition py_int (c : option Z) : outcome Z :=
  match c with
  | Some v => Ok v
  | None => Raise ValueError
  end.

(** [l[i]] on a Python list: a negative index counts from the end, an
    index out of range raises [IndexError]. *)
Definition py_getitem {A : Type} (l : list A) (i : Z) : outcome A :=
  let n := Z.of_nat (List.length l) in
  let j := if i <? 0 then i + n else i in
  if (j <? 0) || (n <=? j) then Raise IndexError
  else match nth_error l (Z.to_nat j) with
       | Some a => Ok a
       | None => Raise IndexError
       end.

(** A number as Python sees it: an [int], or a [float] (here always one
    that holds a whole number). *)
Inductive pynum : Type :=
| PyInt (n : Z)
| PyFloat (n : Z).

(** The dtype of a column derived from dates: [.dt.year] and [.dt.month]
    give an integer column, and a float64 column as soon as the Date
    column holds a NaT. *)
Inductive dtype : Type :=
| int32
| float64.

(** The Python value met when iterating over an index of that dtype. *)
Definition item (dt : dtype) (n : Z) : pynum :=
  match dt with
  | int32 => PyInt n
  | float64 => PyFloat n
  end.

(** [x - k] for an integer [k]: an int stays an int, a float a float. *)
Definition py_sub (x : pynum) (k : Z) : pynum :=
  match x with
  | PyInt n => PyInt (n - k)
  | PyFloat n => PyFloat (n - k)
  end.

(** [l[i]] with [i] a number: a float is no list index and raises
    [TypeError], whatever its value. *)
Definition list_getitem {A : Type} (l : list A) (i : pynum) : outcome A :=
  match i with
  | PyInt n => py_getitem l n
  | PyFloat _ => Raise TypeError
  end.

(** [st.sidebar.slider(label, min_value, max_value, value)]: Streamlit
    refuses a slider whose [min_value] is not below its [max_value];
    otherwise the call returns the range the user has set. *)
Definition slider (min_value max_value : Z) (chosen : Z * Z) : outcome (Z * Z) :=
  if min_value <? max_value then Ok chosen else Raise StreamlitAPIException.

(** [Series.nunique()]: the number of distinct non-null values. *)
Fixpoint unique (l : list string) : list string :=
  match l with
  | [] => []
  | s :: l' => if existsb (String.eqb s) l' then unique l' else s :: unique l'
  end.

Definition nunique (col : list (option string)) : Z :=
  Z.of_nat (List.length (unique (dropna col))).

(** [df[mask]] with the mask computed row by row. *)
Definition boolean_index {R : Type} (mask : R -> bool) (df : list R) : list R :=
  filter mask df.

(** ** Grouping

    [df.groupby(key)] with the defaults [sort=True, dropna=True]: one
    group per distinct non-null key, groups in ascending key order, rows
    with a null key in no group. *)
Section GroupBy.
Context {K R : Type}.
Variable cmp : K -> K -> comparison.
Variable key : R -> option K.

Fixpoint insert_key (k : K) (ks : list K) : list K :=
  match ks with
  | [] => [k]
  | k' :: ks' =>
      match cmp k k' with
      | Lt => k :: ks
      | Eq => ks
      | Gt => k' :: insert_key k ks'
      end
  end.

Fixpoint group_keys (df : list R) : list K :=
  match df with
  | [] => []
  | r :: df' =>
      match key r with
      | Some k => insert_key k (group_keys df')
      | None => group_keys df'
      end
  end.

Definition in_group (k : K) (r : R) : bool :=
  match key r with
  | Some k' => match cmp k' k with Eq => true | _ => false end
  | None => false
  end.

Definition group_rows (k : K) (df : list R) : list R :=
  filter (in_group k) df.

Definition groupby (df : list R) : list (K * list R) :=
  map (fun k => (k, group_rows k df)) (group_keys df).
End GroupBy.

(** ** Frames *)

(** A line of [Actuals_data.csv] as read. *)
Record RawTransaction : Type := mkRaw {
  raw_Rest_Key : option string;
  raw_Date : string;
  raw_Sales : string;
  raw_Customers : string
}.

(** A row of [actuals_df] after the conversions of [load_data]. *)
Record Transaction : Type := mkTransaction {
  t_Rest_Key : option string;
  t_Date : option date;
  t_Sales : option Z;
  t_Customers : option Z;
  t_Year : option Z;
  t_Month : option Z
}.

(** A row of [Location.xlsx]; a blank cell is null. *)
Record Location : Type := mkLocation {
  l_Rest_Key : option string;
  l_Country : option string;
  l_City : option string;
  l_Restaurant_Name : option string
}.

(** A row of [merged_df]. *)
Record Enriched : Type := mkEnriched {
  Rest_Key : option string;
  Date : option date;
  Sales : option Z;
  Customers : option Z;
  Year : option Z;
  Month : option Z;
  Country : option string;
  City : option string;
  Restaurant_Name : option string
}.

(** The values the sidebar widgets return. *)
Record FilterSelection : Type := mkSelection {
  selected_year_range : Z * Z;
  selected_countries : list string;
  selected_cities : list string;
  selected_restaurants : list string
}.

Record MonthlyRow : Type := mkMonthlyRow {
  MonthLabel : string;
  TotalSales : Z;
  RestaurantCount : Z
}.

Record CustomerTotal : Type := mkCustomerTotal {
  GroupKey : string;
  TotalCustomers : Z
}.

(** ** The loader and the join *)
Section Loader.
Variable to_numeric : string -> option Z.
Variable to_datetime : string -> option date.

(** One line of the file converted.  [pd.to_datetime] settles on one
    date format for the whole column; [to_datetime] is the parser of the
    cells of this file, for the format settled on. *)
Definition convert (t : RawTransaction) : Transaction :=
  let d := to_datetime (raw_Date t) in
  {| t_Rest_Key := raw_Rest_Key t;
     t_Date := d;
     t_Sales := to_numeric (raw_Sales t);
     t_Customers := to_numeric (raw_Customers t);
     t_Year := option_map year d;
     t_Month := option_map month d |}.

(** Equality of join keys; [pd.merge] matches a null key with a null
    key. *)
Definition key_eqb (a b : option string) : bool :=
  match a, b with
  | Some x, Some y => String.eqb x y
  | None, None => true
  | _, _ => false
  end.

Definition enrich (t : Transaction) (c ci rn : option string) : Enriched :=
  {| Rest_Key := t_Rest_Key t;
     Date := t_Date t;
     Sales := t_Sales t;
     Customers := t_Customers t;
     Year := t_Year t;
     Month := t_Month t;
     Country := c;
     City := ci;
     Restaurant_Name := rn |}.

(** The rows one left row gives in a left join: one per matching right
    row, in right order, or a single row of nulls. *)
Definition merge_row (location_df : list Location) (t : Transaction)
  : list Enriched :=
  match filter (fun l => key_eqb (t_Rest_Key t) (l_Rest_Key l)) location_df with
  | [] => [enrich t None None None]
  | ms => map (fun l => enrich t (l_Country l) (l_City l) (l_Restaurant_Name l)) ms
  end.

Definition merge (actuals_df : list Transaction) (location_df : list Location)
  : list Enriched :=
  flat_map (merge_row location_df) actuals_df.

Definition load_data (actuals : list RawTransaction) (locations : list Location)
  : list Transaction * list Location * list Enriched :=
  let actuals_df := map convert actuals in
  (actuals_df, locations, merge actuals_df locations).

Definition merged_df (actuals : list RawTransaction) (locations : list Location)
  : list Enriched :=
  snd (load_data actuals locations).
End Loader.

(** The dtype of [actuals_df['Month']] (and of ['Year']): float64 when
    some Date is NaT, an integer dtype otherwise.  The join and the
    filters keep it. *)
Definition month_dtype (actuals_df : list Transaction) : dtype :=
  if forallb (fun t => match t_Date t with Some _ => true | None => false end)
             actuals_df
  then int32 else float64.

(** ** Sidebar bounds *)

Definition year_bounds (merged : list Enriched) : outcome (Z * Z) :=
  min_year <- py_int (col_min (map Year merged)) ;;
  max_year <- py_int (col_max (map Year merged)) ;;
  Ok (min_year, max_year).

(** ** The filter engine *)

Definition year_mask (range : Z * Z) (r : Enriched) : bool :=
  cell_ge (Year r) (fst range) && cell_le (Year r) (snd range).

Definition year_range_filter (range : Z * Z) (df : list Enriched) : list Enriched :=
  boolean_index (year_mask range) df.

(** [if selected: df = df[df[col].isin(selected)]]: an empty list is
    falsy, so the frame is left alone. *)
Definition facet_filter (col : Enriched -> option string) (selected : list string)
  (df : list Enriched) : list Enriched :=
  match selected with
  | [] => df
  | _ :: _ => boolean_index (fun r => isin (col r) selected) df
  end.

Definition filtered_df (sel : FilterSelection) (merged : list Enriched)
  : list Enriched :=
  let df := year_range_filter (selected_year_range sel) merged in
  let df := facet_filter Country (selected_countries sel) df in
  let df := facet_filter City (selected_cities sel) df in
  facet_filter Restaurant_Name (selected_restaurants sel) df.

(** ** Aggregations *)

Definition sales_by_month (df : list Enriched) : list (Z * Z) :=
  map (fun g => (fst g, sum_skipna (map Sales (snd g))))
      (groupby Z.compare Month df).

Definition restaurants_by_month (df : list Enriched) : list (Z * Z) :=
  map (fun g => (fst g, nunique (map Rest_Key (snd g))))
      (groupby Z.compare Month df).

Definition month_names : list string :=
  ["Jan"; "Feb"; "Mar"; "Apr"; "May"; "Jun";
   "Jul"; "Aug"; "Sep"; "Oct"; "Nov"; "Dec"].

(** [[f(x) for x in xs]] where [f] may raise. *)
Fixpoint comprehension {A B : Type} (f : A -> outcome B) (xs : list A)
  : outcome (list B) :=
  match xs with
  | [] => Ok []
  | x :: xs' =>
      y <- f x ;;
      ys <- comprehension f xs' ;;
      Ok (y :: ys)
  end.

(** Columns of equal length put side by side. *)
Fixpoint zip3 (a : list string) (b c : list Z) : list MonthlyRow :=
  match a, b, c with
  | x :: a', y :: b', z :: c' => mkMonthlyRow x y z :: zip3 a' b' c'
  | _, _, _ => []
  end.

(** The Month column of the frame has dtype [month_dtype], and so has the
    index of the two grouped series; [month_names[m-1]] is evaluated on
    the index values as Python numbers. *)
Definition monthly_summary (month_dtype : dtype) (df : list Enriched)
  : outcome (list MonthlyRow) :=
  labels <- comprehension
              (fun m => list_getitem month_names (py_sub (item month_dtype m) 1))
              (map fst (sales_by_month df)) ;;
  Ok (zip3 labels (map snd (sales_by_month df))
                  (map snd (restaurants_by_month df))).

(** [df.groupby(col)['Customers'].sum().reset_index()] with its two
    columns renamed. *)
Definition customers_grouped (col : Enriched -> option string)
  (df : list Enriched) : list CustomerTotal :=
  map (fun g => mkCustomerTotal (fst g) (sum_skipna (map Customers (snd g))))
      (groupby String_as_OT.compare col df).

Definition total_ge (a b : CustomerTotal) : Prop :=
  TotalCustomers b <= TotalCustomers a.

(** [sort_values(by='Total Customers', ascending=False)] runs the
    library's default sort (kind='quicksort'), which is not stable: the
    order it gives to rows with equal totals is the library's business.
    The tables are therefore defined for any function [sort_values] that
    rearranges a frame into descending order of total. *)
Definition valid_sort_values
  (sort_values : list CustomerTotal -> list CustomerTotal) : Prop :=
  forall l, Permutation (sort_values l) l /\
            StronglySorted total_ge (sort_values l).

Definition customers_by_restaurant
  (sort_values : list CustomerTotal -> list CustomerTotal)
  (df : list Enriched) : list CustomerTotal :=
  sort_values (customers_grouped Restaurant_Name df).

Definition customers_by_country
  (sort_values : list CustomerTotal -> list CustomerTotal)
  (df : list Enriched) : list CustomerTotal :=
  sort_values (customers_grouped Country df).

(** ** The script, top to bottom *)

Record Tables : Type := mkTables {
  tbl_monthly : list MonthlyRow;
  tbl_restaurant : list CustomerTotal;
  tbl_country : list CustomerTotal
}.

(** [sel] holds what the user has set in the four widgets; the year
    range in force is what the slider call returns. *)
Definition with_year_range (range : Z * Z) (sel : FilterSelection)
  : FilterSelection :=
  mkSelection range (selected_countries sel) (selected_cities sel)
              (selected_restaurants sel).

Definition dashboard (sort_values : list CustomerTotal -> list CustomerTotal)
  (to_numeric : string -> option Z)
  (to_datetime : string -> option date)
  (actuals : list RawTransaction) (locations : list Location)
  (sel : FilterSelection) : outcome Tables :=
  let actuals_df := fst (fst (load_data to_numeric to_datetime actuals locations)) in
  let merged := merged_df to_numeric to_datetime actuals locations in
  bounds <- year_bounds merged ;;
  range <- slider (fst bounds) (snd bounds) (selected_year_range sel) ;;
  let df := filtered_df (with_year_range range sel) merged in
  ms <- monthly_summary (month_dtype actuals_df) df ;;
  Ok (mkTables ms (customers_by_restaurant sort_values df)
               (customers_by_country sort_values df)).


(** ** Cell parsers for worked examples

    Two concrete parsers of the shape [load_data] expects: unsigned
    decimal numerals, and day-first dates written [dd/mm/yyyy].  Any other
    text is coerced to null. *)

Definition digit (c : ascii) : option Z :=
  let n := Z.of_N (N_of_ascii c) in
  if (48 <=? n) && (n <=? 57) then Some (n - 48) else None.

Fixpoint digits (acc : Z) (s : string) : option Z :=
  match s with
  | EmptyString => Some acc
  | String c s' =>
      match digit c with
      | Some d => digits (10 * acc + d) s'
      | None => None
      end
  end.

Definition decimal_cell (s : string) : option Z :=
  match s with
  | EmptyString => None
  | _ => digits 0 s
  end.

Definition dayfirst_cell (s : string) : option date :=
  match decimal_cell (substring 0 2 s), decimal_cell (substring 3 2 s),
        decimal_cell (substring 6 4 s) with
  | Some d, Some m, Some y =>
      if String.eqb (substring 2 1 s) "/" && String.eqb (substring 5 1 s) "/"
         && Nat.eqb (String.length s) 10
         && (1 <=? m) && (m <=? 12) && (1 <=? d) && (d <=? 31)
      then Some (mkDate y m d)
      else None
  | _, _, _ => None
  end.

(** The two-restaurant data set of the specification's scenario. *)
Definition scenario_actuals : list RawTransaction :=
  [ mkRaw (Some "R1") "15/01/2023" "100" "10";
    mkRaw (Some "R2") "20/02/2023" "200" "5" ].

Definition scenario_locations : list Location :=
  [ mkLocation (Some "R1") (Some "France") (Some "Paris") (Some "Bistro A");
    mkLocation (Some "R2") (Some "Spain") (Some "Madrid") (Some "Tapas B") ].

Definition scenario_selection : FilterSelection :=
  mkSelection (2023, 2023) ["France"] [] [].

Definition scenario_merged : list Enriched :=
  merged_df decimal_cell dayfirst_cell scenario_actuals scenario_locations.

(** ** Facts about cells and sums *)

Definition zsum (l : list Z) : Z := fold_right Z.add 0 l.

Definition cell0 (c : option Z) : Z :=
  match c with
  | Some v => v
  | None => 0
  end.

Definition notnull {A : Type} (c : option A) : bool :=
  match c with
  | Some _ => true
  | None => false
  end.

(** The sum of a column of totals. *)
Definition grand_total (t : list CustomerTotal) : Z :=
  zsum (map TotalCustomers t).

(** Look a key up in a grouped series. *)
Fixpoint series_get (m : Z) (s : list (Z * Z)) : option Z :=
  match s with
  | [] => None
  | (k, v) :: s' => if k =? m then Some v else series_get m s'
  end.

(** The label of month number [m] as the specification words it: the
    m-th of Jan..Dec. *)
Definition month_label (m : Z) : string :=
  match m with
  | 1 => "Jan" | 2 => "Feb" | 3 => "Mar" | 4 => "Apr"
  | 5 => "May" | 6 => "Jun" | 7 => "Jul" | 8 => "Aug"
  | 9 => "Sep" | 10 => "Oct" | 11 => "Nov" | 12 => "Dec"
  | _ => ""
  end.

(** The row of the monthly table for month [m]. *)
Definition monthly_row (df : list Enriched) (m : Z) : MonthlyRow :=
  mkMonthlyRow (month_label m)
    (sum_skipna (map Sales (group_rows Z.compare Month m df)))
    (nunique (map Rest_Key (group_rows Z.compare Month m df))).

(** The year condition as the specification words it: Year is not null
    and lies in [min, max], both ends included. *)
Definition within_years (range : Z * Z) (r : Enriched) : bool :=
  match Year r with
  | Some y => (fst range <=? y) && (y <=? snd range)
  | None => false
  end.


(** The distinct Rest_Key values among the rows of month [m]. *)
Definition month_keys (m : Z) (df : list Enriched) : list string :=
  unique (dropna (map Rest_Key (group_rows Z.compare Month m df))).



(** One sort of the kind [valid_sort_values] asks for, by insertion, for
    worked examples; this one happens to keep the frame order of rows
    with equal totals. *)
Fixpoint insert_desc (x : CustomerTotal) (l : list CustomerTotal)
  : list CustomerTotal :=
  match l with
  | [] => [x]
  | y :: l' =>
      if TotalCustomers y <=? TotalCustomers x then x :: l
      else y :: insert_desc x l'
  end.

Fixpoint insertion_sort_desc (l : list CustomerTotal) : list CustomerTotal :=
  match l with
  | [] => []
  | x :: l' => insert_desc x (insertion_sort_desc l')
  end.

(** Two restaurants with the same number of customers, the one later in
    the alphabet first in the file. *)
Definition tie_actuals : list RawTransaction :=
  [ mkRaw (Some "R2") "20/02/2023" "200" "5";
    mkRaw (Some "R1") "15/01/2023" "100" "5" ].

(** The year 2023 and nothing selected in the three multiselects. *)
Definition year_only_selection : FilterSelection :=
  mkSelection (2023, 2023) [] [] [].

Definition tie_filtered : list Enriched :=
  filtered_df year_only_selection
    (merged_df decimal_cell dayfirst_cell tie_actuals scenario_locations).

(** A location sheet whose Country cell is blank for a named restaurant. *)
Definition blank_country_locations : list Location :=
  [ mkLocation (Some "R1") None (Some "Paris") (Some "Bistro A") ].

Definition blank_country_actuals : list RawTransaction :=
  [ mkRaw (Some "R1") "15/01/2023" "100" "10" ].

Definition blank_country_filtered : list Enriched :=
  filtered_df year_only_selection
    (merged_df decimal_cell dayfirst_cell blank_country_actuals
               blank_country_locations).

(** The one row the scenario's selection keeps. *)
Definition france_row : Enriched :=
  enrich (convert decimal_cell dayfirst_cell
            (mkRaw (Some "R1") "15/01/2023" "100" "10"))
         (Some "France") (Some "Paris") (Some "Bistro A").

(** A transaction whose key is not in the location sheet, between two
    that are. *)
Definition unmatched_actuals : list RawTransaction :=
  [ mkRaw (Some "R1") "15/01/2023" "100" "10";
    mkRaw (Some "R9") "16/01/2023" "50" "7";
    mkRaw (Some "R2") "20/02/2023" "200" "5" ].

Definition unmatched_row : Enriched :=
  enrich (convert decimal_cell dayfirst_cell
            (mkRaw (Some "R9") "16/01/2023" "50" "7")) None None None.

Definition na_sales_row : Enriched :=
  enrich (convert decimal_cell dayfirst_cell
            (mkRaw (Some "R2") "20/01/2023" "N/A" "5"))
         (Some "Spain") (Some "Madrid") (Some "Tapas B").

(** A file with one Date cell that does not parse. *)
Definition mixed_actuals : list RawTransaction :=
  [ mkRaw (Some "R1") "15/01/2023" "100" "10";
    mkRaw (Some "R2") "2023-13-45" "200" "5" ].

Definition undated_row : Enriched :=
  enrich (convert decimal_cell dayfirst_cell
            (mkRaw (Some "R2") "2023-13-45" "200" "5"))
         (Some "Spain") (Some "Madrid") (Some "Tapas B").

(** A file in which no Date cell parses. *)
Definition undated_actuals : list RawTransaction :=
  [ mkRaw (Some "R1") "soon" "100" "10";
    mkRaw (Some "R2") "" "200" "5" ].

(** A file with one unparseable Sales cell. *)
Definition na_sales_actuals : list RawTransaction :=
  [ mkRaw (Some "R1") "15/01/2023" "100" "10";
    mkRaw (Some "R2") "20/01/2023" "N/A" "5" ].

(** ** Sidebar widgets *)

(** [Series.unique()]: the distinct values, in order of first appearance. *)
Fixpoint pd_unique (l : list string) : list string :=
  match l with
  | [] => []
  | s :: l' => s :: filter (fun x => negb (String.eqb x s)) (pd_unique l')
  end.

(** [sorted(xs)] on strings: ascending and stable. *)
Fixpoint insert_asc (x : string) (l : list string) : list string :=
  match l with
  | [] => [x]
  | y :: l' =>
      match String_as_OT.compare y x with
      | Lt => y :: insert_asc x l'
      | _ => x :: l
      end
  end.

Fixpoint py_sorted (l : list string) : list string :=
  match l with
  | [] => []
  | x :: l' => insert_asc x (py_sorted l')
  end.

(** [sorted(merged_df[col].dropna().unique())]: what a multiselect
    offers. *)
Definition options (col : Enriched -> option string) (merged : list Enriched)
  : list string :=
  py_sorted (pd_unique (dropna (map col merged))).

(** What the widgets return before the user touches them: the slider at
    [(min_year, max_year)], countries and cities with every option
    selected, restaurants with none. *)
Definition default_selection (merged : list Enriched) : outcome FilterSelection :=
  range <- year_bounds merged ;;
  Ok (mkSelection range (options Country merged) (options City merged) []).

(** ** Chart data *)

Record Trace : Type := mkTrace {
  trace_x : list string;
  trace_y : list Z
}.

(** The bar trace and the line trace of [fig_sales]; each builds its own
    label list. *)
Definition fig_sales (month_dtype : dtype) (df : list Enriched)
  : outcome (Trace * Trace) :=
  bar_x <- comprehension
             (fun m => list_getitem month_names (py_sub (item month_dtype m) 1))
             (map fst (sales_by_month df)) ;;
  line_x <- comprehension
              (fun m => list_getitem month_names (py_sub (item month_dtype m) 1))
              (map fst (restaurants_by_month df)) ;;
  Ok (mkTrace bar_x (map snd (sales_by_month df)),
      mkTrace line_x (map snd (restaurants_by_month df))).

(** ** Reading aids for the statements below *)

(** The transaction columns of a merged row. *)
Definition to_transaction (r : Enriched) : Transaction :=
  {| t_Rest_Key := Rest_Key r;
     t_Date := Date r;
     t_Sales := Sales r;
     t_Customers := Customers r;
     t_Year := Year r;
     t_Month := Month r |}.

(** The location rows whose key equals the transaction's. *)
Definition matching (location_df : list Location) (t : Transaction)
  : list Location :=
  filter (fun l => key_eqb (t_Rest_Key t) (l_Rest_Key l)) location_df.

(** How many merged rows one transaction gives. *)
Definition copies (location_df : list Location) (t : Transaction) : nat :=
  Nat.max 1 (List.length (matching location_df t)).

(** One facet condition: no condition when nothing is selected. *)
Definition facet_mask (col : Enriched -> option string) (selected : list string)
  (r : Enriched) : bool :=
  match selected with
  | [] => true
  | _ :: _ => isin (col r) selected
  end.

(** The four conditions of the filter, taken together. *)
Definition selection_mask (sel : FilterSelection) (r : Enriched) : bool :=
  year_mask (selected_year_range sel) r
  && facet_mask Country (selected_countries sel) r
  && facet_mask City (selected_cities sel) r
  && facet_mask Restaurant_Name (selected_restaurants sel) r.

Definition is_nil {A : Type} (l : list A) : bool :=
  match l with
  | [] => true
  | _ :: _ => false
  end.

(** The rows shown before the user touches a widget. *)
Definition default_mask (merged : list Enriched) (r : Enriched) : bool :=
  notnull (Year r)
  && (notnull (Country r) || is_nil (options Country merged))
  && (notnull (City r) || is_nil (options City merged)).

(** A February row of Tapas B whose Sales and Customers cells did not
    parse. *)
Definition null_customers_row : Enriched :=
  enrich (convert decimal_cell dayfirst_cell
            (mkRaw (Some "R2") "20/02/2023" "N/A" "n/a"))
         (Some "Spain") (Some "Madrid") (Some "Tapas B").

(** A location sheet that lists restaurant R1 twice. *)
Definition duplicate_locations : list Location :=
  [ mkLocation (Some "R1") (Some "France") (Some "Paris") (Some "Bistro A");
    mkLocation (Some "R1") (Some "France") (Some "Lyon") (Some "Bistro A2");
    mkLocation (Some "R2") (Some "Spain") (Some "Madrid") (Some "Tapas B") ].

(** A transaction file that spans two years, so that the slider has a
    range to offer. *)
Definition two_year_actuals : list RawTransaction :=
  [ mkRaw (Some "R1") "15/01/2023" "100" "10";
    mkRaw (Some "R2") "20/02/2023" "200" "5";
    mkRaw (Some "R1") "10/03/2024" "150" "7" ].

(** The same file with one more line, whose Date does not parse. *)
Definition two_year_undated_actuals : list RawTransaction :=
  [ mkRaw (Some "R1") "15/01/2023" "100" "10";
    mkRaw (Some "R2") "20/02/2023" "200" "5";
    mkRaw (Some "R1") "10/03/2024" "150" "7";
    mkRaw (Some "R2") "2023-13-45" "80" "4" ].

Definition both_years_selection : FilterSelection :=
  mkSelection (2023, 2024) [] [] [].

(** Two restaurants with five customers each in 2023, in a two-year file:
    once with the Tapas B line first, once with the Bistro A line first. *)
Definition tapas_first_actuals : list RawTransaction :=
  [ mkRaw (Some "R2") "20/02/2023" "200" "5";
    mkRaw (Some "R1") "15/01/2023" "100" "5";
    mkRaw (Some "R1") "10/03/2024" "150" "7" ].


Definition tapas_first_frame : list Enriched :=
  filtered_df year_only_selection
    (merged_df decimal_cell dayfirst_cell tapas_first_actuals scenario_locations).



Example scenario_tables :
  filtered_df scenario_selection scenario_merged = [france_row] /\
  monthly_summary int32 [france_row] = Ok [mkMonthlyRow "Jan" 100 1] /\
  customers_by_restaurant insertion_sort_desc [france_row]
  = [mkCustomerTotal "Bistro A" 10] /\
  customers_by_country insertion_sort_desc [france_row]
  = [mkCustomerTotal "France" 10].
Proof. repeat split; reflexivity. Qed.

Example two_year_tables :
  dashboard insertion_sort_desc decimal_cell dayfirst_cell two_year_actuals
            scenario_locations both_years_selection
  = Ok (mkTables [mkMonthlyRow "Jan" 100 1; mkMonthlyRow "Feb" 200 1;
                  mkMonthlyRow "Mar" 150 1]
                 [mkCustomerTotal "Bistro A" 17; mkCustomerTotal "Tapas B" 5]
                 [mkCustomerTotal "France" 17; mkCustomerTotal "Spain" 5]).
Proof. reflexivity. Qed.

Example single_year_file_stops_at_slider :
  dashboard insertion_sort_desc decimal_cell dayfirst_cell scenario_actuals
            scenario_locations scenario_selection
  = Raise StreamlitAPIException.
Proof. reflexivity. Qed.

Example unparseable_cells :
  decimal_cell "N/A" = None /\ dayfirst_cell "2023-13-45" = None.
Proof. split; reflexivity. Qed.


Lemma sum_skipna_app (a b : list (option Z)) :
  sum_skipna (a ++ b) = sum_skipna a + sum_skipna b.
Proof.
  induction a as [|[v|] a IH]; simpl; rewrite ?IH; lia.
Qed.

Lemma zsum_app (a b : list Z) : zsum (a ++ b) = zsum a + zsum b.
Proof.
  induction a as [|x a IH]; simpl; rewrite ?IH; lia.
Qed.

Lemma zsum_map_add {A : Type} (f g : A -> Z) (l : list A) :
  zsum (map (fun x => f x + g x) l) = zsum (map f l) + zsum (map g l).
Proof.
  induction l as [|x l IH]; simpl; rewrite ?IH; lia.
Qed.

Lemma zsum_map_zero {A : Type} (f : A -> Z) (l : list A) :
  (forall x, In x l -> f x = 0) -> zsum (map f l) = 0.
Proof.
  induction l as [|x l IH]; simpl; intros H; [reflexivity|].
  rewrite (H x), IH by auto. reflexivity.
Qed.

Lemma zsum_map_ext {A : Type} (f g : A -> Z) (l : list A) :
  (forall x, In x l -> f x = g x) -> zsum (map f l) = zsum (map g l).
Proof.
  intros H. f_equal. apply map_ext_in, H.
Qed.

(** ** Facts about grouping *)
Section GroupByFacts.
Context {K R : Type}.
Variable cmp : K -> K -> comparison.
Variable klt : K -> K -> Prop.
Hypothesis cmp_spec : forall x y, CompSpec eq klt x y (cmp x y).
Hypothesis klt_strict : StrictOrder klt.
Variable key : R -> option K.

Lemma cmp_eq_iff (x y : K) : cmp x y = Eq <-> x = y.
Proof.
  destruct (cmp_spec x y) as [E|L|L]; split; intros H;
    try discriminate; try assumption; try reflexivity;
    subst; exfalso; eapply irreflexivity; eassumption.
Qed.

Lemma cmp_refl (x : K) : cmp x x = Eq.
Proof. apply cmp_eq_iff. reflexivity. Qed.

Lemma in_group_iff (k : K) (r : R) :
  in_group cmp key k r = true <-> key r = Some k.
Proof.
  unfold in_group. destruct (key r) as [k'|]; [|split; discriminate].
  destruct (cmp k' k) eqn:E; split; intros H; try discriminate;
    try reflexivity.
  - apply cmp_eq_iff in E. congruence.
  - injection H as ->. rewrite cmp_refl in E. discriminate.
  - injection H as ->. rewrite cmp_refl in E. discriminate.
Qed.

Lemma in_group_null (k : K) (r : R) :
  key r = None -> in_group cmp key k r = false.
Proof. unfold in_group. intros ->. reflexivity. Qed.

Lemma insert_key_In (k x : K) (ks : list K) :
  In x (insert_key cmp k ks) <-> x = k \/ In x ks.
Proof.
  induction ks as [|k' ks IH]; simpl.
  - intuition.
  - destruct (cmp k k') eqn:E; simpl.
    + apply cmp_eq_iff in E. subst. intuition.
    + intuition.
    + rewrite IH. intuition.
Qed.

Lemma insert_key_sorted (k : K) (ks : list K) :
  StronglySorted klt ks -> StronglySorted klt (insert_key cmp k ks).
Proof.
  induction 1 as [|k' ks Hs IH Hall]; simpl.
  - repeat constructor.
  - destruct (cmp_spec k k') as [E|L|G].
    + constructor; assumption.
    + constructor; [constructor; assumption|].
      constructor; [assumption|].
      rewrite Forall_forall in *. intros y Hy.
      transitivity k'; auto.
    + constructor; [assumption|].
      rewrite Forall_forall in *. intros y Hy.
      apply insert_key_In in Hy. destruct Hy as [->|Hy]; auto.
Qed.

Lemma group_keys_sorted (df : list R) :
  StronglySorted klt (group_keys cmp key df).
Proof.
  induction df as [|r df IH]; simpl; [constructor|].
  destruct (key r); [apply insert_key_sorted|]; assumption.
Qed.

Lemma group_keys_In (k : K) (df : list R) :
  In k (group_keys cmp key df) <-> exists r, In r df /\ key r = Some k.
Proof.
  induction df as [|r df IH]; simpl.
  - split; [tauto|intros (r & [] & _)].
  - destruct (key r) as [k'|] eqn:E.
    + rewrite insert_key_In, IH. split.
      * intros [->|(r' & Hr & Hk)]; eauto.
      * intros (r' & [->|Hr] & Hk); [left; congruence|eauto].
    + rewrite IH. split.
      * intros (r' & Hr & Hk); eauto.
      * intros (r' & [->|Hr] & Hk); [congruence|eauto].
Qed.

Lemma sorted_NoDup (ks : list K) : StronglySorted klt ks -> NoDup ks.
Proof.
  induction 1 as [|k ks Hs IH Hall]; constructor; [|assumption].
  intros Hin. rewrite Forall_forall in Hall.
  eapply irreflexivity. apply Hall, Hin.
Qed.

(** A row with a null key is in no group: dropping it changes nothing. *)
Lemma group_keys_drop_null (a b : list R) (r : R) :
  key r = None ->
  group_keys cmp key (a ++ r :: b) = group_keys cmp key (a ++ b).
Proof.
  intros Hr. induction a as [|x a IH]; simpl.
  - rewrite Hr. reflexivity.
  - rewrite IH. reflexivity.
Qed.

Lemma group_rows_drop_null (k : K) (a b : list R) (r : R) :
  key r = None ->
  group_rows cmp key k (a ++ r :: b) = group_rows cmp key k (a ++ b).
Proof.
  intros Hr. unfold group_rows. rewrite !filter_app. simpl.
  rewrite in_group_null by assumption. reflexivity.
Qed.

Lemma groupby_drop_null (a b : list R) (r : R) :
  key r = None ->
  groupby cmp key (a ++ r :: b) = groupby cmp key (a ++ b).
Proof.
  intros Hr. unfold groupby. rewrite group_keys_drop_null by assumption.
  apply map_ext. intros k. rewrite group_rows_drop_null by assumption.
  reflexivity.
Qed.

(** Exactly one of a duplicate-free key list selects a given key. *)
Lemma zsum_indicator (k0 : K) (c : Z) (ks : list K) :
  NoDup ks -> In k0 ks ->
  zsum (map (fun k => match cmp k0 k with Eq => c | _ => 0 end) ks) = c.
Proof.
  induction 1 as [|k ks Hk Hnd IH]; simpl; [tauto|].
  intros [->|Hin].
  - rewrite cmp_refl. rewrite zsum_map_zero; [lia|].
    intros x Hx. destruct (cmp k0 x) eqn:E; try reflexivity.
    apply cmp_eq_iff in E. subst. contradiction.
  - rewrite IH by assumption.
    destruct (cmp k0 k) eqn:E; try lia.
    apply cmp_eq_iff in E. subst. contradiction.
Qed.

(** The group sums of a column add up to the column's sum over the rows
    that have a key. *)
Lemma group_sums_total (col : R -> option Z) (ks : list K) (df : list R) :
  NoDup ks ->
  (forall r k, In r df -> key r = Some k -> In k ks) ->
  zsum (map (fun k => sum_skipna (map col (group_rows cmp key k df))) ks)
  = sum_skipna (map col (filter (fun r => notnull (key r)) df)).
Proof.
  intros Hnd. induction df as [|r df IH]; intros Hall.
  - simpl. apply zsum_map_zero. reflexivity.
  - assert (Hall' : forall r' k, In r' df -> key r' = Some k -> In k ks)
      by (intros; eapply Hall; [right|]; eassumption).
    specialize (IH Hall'). simpl filter.
    destruct (key r) as [k0|] eqn:Ek; simpl notnull; cbv iota.
    + simpl map. rewrite <- (zsum_map_ext
        (fun k => match cmp k0 k with Eq => cell0 (col r) | _ => 0 end
                  + sum_skipna (map col (group_rows cmp key k df)))).
      * rewrite zsum_map_add, IH, zsum_indicator; auto.
        -- destruct (col r); simpl; lia.
        -- eapply Hall; [left; reflexivity|assumption].
      * intros k _. unfold group_rows. simpl filter.
        unfold in_group at 2. rewrite Ek.
        destruct (cmp k0 k); simpl; destruct (col r); simpl; lia.
    + rewrite <- IH. apply zsum_map_ext. intros k _.
      unfold group_rows. simpl filter. rewrite in_group_null by assumption.
      reflexivity.
Qed.

Lemma groupby_sums_total (col : R -> option Z) (df : list R) :
  zsum (map (fun g => sum_skipna (map col (snd g))) (groupby cmp key df))
  = sum_skipna (map col (filter (fun r => notnull (key r)) df)).
Proof.
  unfold groupby. rewrite map_map. simpl.
  apply group_sums_total.
  - apply sorted_NoDup, group_keys_sorted.
  - intros r k Hr Hk. apply group_keys_In. eauto.
Qed.
End GroupByFacts.

(** ** Facts about the loader and the join *)

Lemma merge_row_fields (locs : list Location) (t : Transaction) (r : Enriched) :
  In r (merge_row locs t) ->
  Rest_Key r = t_Rest_Key t /\ Date r = t_Date t /\ Sales r = t_Sales t /\
  Customers r = t_Customers t /\ Year r = t_Year t /\ Month r = t_Month t.
Proof.
  unfold merge_row.
  destruct (filter _ locs) as [|l ms].
  - intros [<-|[]]. simpl. auto 10.
  - intros H. apply in_map_iff in H. destruct H as (l' & <- & _).
    simpl. auto 10.
Qed.

(** An unmatched key keeps the row, with null location columns. *)
Lemma merge_row_unmatched (locs : list Location) (t : Transaction) :
  (forall l, In l locs -> key_eqb (t_Rest_Key t) (l_Rest_Key l) = false) ->
  merge_row locs t = [enrich t None None None].
Proof.
  intros H. unfold merge_row.
  replace (filter _ locs) with (@nil Location); [reflexivity|].
  symmetry. induction locs as [|l locs IH]; simpl; [reflexivity|].
  rewrite H by (left; reflexivity). apply IH.
  intros l' Hl'. apply H. right. assumption.
Qed.

Lemma merged_df_origin (to_numeric : string -> option Z)
  (to_datetime : string -> option date)
  (actuals : list RawTransaction) (locs : list Location) (r : Enriched) :
  In r (merged_df to_numeric to_datetime actuals locs) ->
  exists t, In t actuals /\
    Rest_Key r = raw_Rest_Key t /\
    Date r = to_datetime (raw_Date t) /\
    Sales r = to_numeric (raw_Sales t) /\
    Customers r = to_numeric (raw_Customers t) /\
    Year r = option_map year (Date r) /\
    Month r = option_map month (Date r).
Proof.
  unfold merged_df, load_data, merge. simpl. intros H.
  apply in_flat_map in H. destruct H as (t' & Ht' & Hr).
  apply in_map_iff in Ht'. destruct Ht' as (t & <- & Ht).
  apply merge_row_fields in Hr.
  destruct Hr as (H1 & H2 & H3 & H4 & H5 & H6).
  exists t. rewrite H1, H2, H3, H4, H5, H6. simpl. auto 10.
Qed.

(** ** Facts about the filter engine *)

Lemma year_mask_iff (range : Z * Z) (r : Enriched) :
  year_mask range r = true <->
  exists y, Year r = Some y /\ fst range <= y <= snd range.
Proof.
  unfold year_mask, cell_ge, cell_le. destruct (Year r) as [y|].
  - rewrite andb_true_iff, !Z.leb_le. split.
    + intros H. exists y. split; [reflexivity|lia].
    + intros (y' & [= <-] & H). lia.
  - split; [discriminate|]. intros (y & H & _). discriminate.
Qed.

Lemma isin_iff (c : option string) (values : list string) :
  isin c values = true <-> exists s, c = Some s /\ In s values.
Proof.
  unfold isin. destruct c as [s|].
  - rewrite existsb_exists. split.
    + intros (x & Hx & E). apply String.eqb_eq in E. subst. eauto.
    + intros (x & [= <-] & Hx). exists s. split; [assumption|].
      apply String.eqb_refl.
  - split; [discriminate|]. intros (s & H & _). discriminate.
Qed.

Lemma facet_filter_incl (col : Enriched -> option string)
  (selected : list string) (df : list Enriched) (r : Enriched) :
  In r (facet_filter col selected df) -> In r df.
Proof.
  unfold facet_filter, boolean_index. destruct selected; [tauto|].
  intros H. apply filter_In in H. tauto.
Qed.

Lemma facet_filter_empty (col : Enriched -> option string) (df : list Enriched) :
  facet_filter col [] df = df.
Proof. reflexivity. Qed.

Lemma facet_filter_member (col : Enriched -> option string)
  (selected : list string) (df : list Enriched) (r : Enriched) :
  selected <> [] ->
  In r (facet_filter col selected df) ->
  exists s, col r = Some s /\ In s selected.
Proof.
  unfold facet_filter, boolean_index. destruct selected; [congruence|].
  intros _ H. apply filter_In in H. apply isin_iff. tauto.
Qed.

Lemma filtered_df_in_year (sel : FilterSelection) (merged : list Enriched)
  (r : Enriched) :
  In r (filtered_df sel merged) ->
  In r (year_range_filter (selected_year_range sel) merged).
Proof.
  unfold filtered_df. intros H.
  repeat apply facet_filter_incl in H. assumption.
Qed.

Lemma filtered_df_year (sel : FilterSelection) (merged : list Enriched)
  (r : Enriched) :
  In r (filtered_df sel merged) ->
  In r merged /\
  exists y, Year r = Some y /\
    fst (selected_year_range sel) <= y <= snd (selected_year_range sel).
Proof.
  intros H. apply filtered_df_in_year in H.
  unfold year_range_filter, boolean_index in H.
  apply filter_In in H. rewrite year_mask_iff in H. assumption.
Qed.

(** In a frame that went through the year filter, a row has a month. *)
Lemma filtered_df_month (to_numeric : string -> option Z)
  (to_datetime : string -> option date)
  (actuals : list RawTransaction) (locs : list Location)
  (sel : FilterSelection) (r : Enriched) :
  In r (filtered_df sel (merged_df to_numeric to_datetime actuals locs)) ->
  exists d, Date r = Some d /\ Month r = Some (month d) /\
            exists s, to_datetime s = Some d.
Proof.
  intros H. apply filtered_df_year in H. destruct H as (Hm & y & Hy & _).
  apply merged_df_origin in Hm.
  destruct Hm as (t & _ & _ & HD & _ & _ & HY & HM).
  destruct (Date r) as [d|] eqn:E.
  - exists d. split; [reflexivity|]. split; [assumption|].
    exists (raw_Date t). symmetry. assumption.
  - rewrite HY in Hy. discriminate.
Qed.

Lemma filter_all {A : Type} (p : A -> bool) (l : list A) :
  (forall x, In x l -> p x = true) -> filter p l = l.
Proof.
  induction l as [|x l IH]; simpl; intros H; [reflexivity|].
  rewrite H by auto. f_equal. apply IH. auto.
Qed.

(** ** Facts about the monthly table *)

Lemma comprehension_ok {A B : Type} (f : A -> outcome B) (g : A -> B)
  (xs : list A) :
  (forall x, In x xs -> f x = Ok (g x)) ->
  comprehension f xs = Ok (map g xs).
Proof.
  induction xs as [|x xs IH]; simpl; intros H; [reflexivity|].
  rewrite H by auto. simpl. rewrite IH by auto. reflexivity.
Qed.

Lemma month_names_getitem (m : Z) :
  1 <= m <= 12 -> py_getitem month_names (m - 1) = Ok (month_label m).
Proof.
  intros H.
  assert (E : m = 1 \/ m = 2 \/ m = 3 \/ m = 4 \/ m = 5 \/ m = 6 \/
              m = 7 \/ m = 8 \/ m = 9 \/ m = 10 \/ m = 11 \/ m = 12) by lia.
  repeat (destruct E as [->|E]; [reflexivity|]). subst. reflexivity.
Qed.

Lemma zip3_map {A : Type} (f : A -> string) (g h : A -> Z) (l : list A) :
  zip3 (map f l) (map g l) (map h l)
  = map (fun x => mkMonthlyRow (f x) (g x) (h x)) l.
Proof.
  induction l as [|x l IH]; simpl; [|rewrite IH]; reflexivity.
Qed.

Lemma month_series_keys (df : list Enriched) :
  map fst (sales_by_month df) = group_keys Z.compare Month df /\
  map fst (restaurants_by_month df) = group_keys Z.compare Month df.
Proof.
  unfold sales_by_month, restaurants_by_month, groupby.
  rewrite !map_map. simpl. rewrite map_id. split; reflexivity.
Qed.

Lemma month_label_lookup (df : list Enriched) :
  (forall m, In m (group_keys Z.compare Month df) -> 1 <= m <= 12) ->
  comprehension (fun m => list_getitem month_names (py_sub (item int32 m) 1))
                (group_keys Z.compare Month df)
  = Ok (map month_label (group_keys Z.compare Month df)).
Proof.
  intros H. apply comprehension_ok. intros m Hm. simpl.
  apply month_names_getitem, H, Hm.
Qed.

Lemma monthly_summary_ok (df : list Enriched) :
  (forall m, In m (group_keys Z.compare Month df) -> 1 <= m <= 12) ->
  monthly_summary int32 df
  = Ok (map (monthly_row df) (group_keys Z.compare Month df)).
Proof.
  intros H. unfold monthly_summary.
  rewrite (proj1 (month_series_keys df)), (month_label_lookup df H).
  unfold bind, sales_by_month, restaurants_by_month, groupby.
  rewrite !map_map. cbn [fst snd]. rewrite zip3_map. reflexivity.
Qed.

(** With a float64 Month column the first label lookup already fails. *)
Lemma monthly_summary_float (df : list Enriched) :
  group_keys Z.compare Month df <> [] ->
  monthly_summary float64 df = Raise TypeError.
Proof.
  intros H. unfold monthly_summary.
  rewrite (proj1 (month_series_keys df)).
  destruct (group_keys Z.compare Month df); [congruence|reflexivity].
Qed.

Lemma monthly_summary_no_month (dt : dtype) (df : list Enriched) :
  group_keys Z.compare Month df = [] -> monthly_summary dt df = Ok [].
Proof.
  intros E. unfold monthly_summary, sales_by_month, restaurants_by_month,
    groupby. rewrite E. reflexivity.
Qed.

Lemma comprehension_length {A B : Type} (f : A -> outcome B) (xs : list A)
  (ys : list B) :
  comprehension f xs = Ok ys -> List.length ys = List.length xs.
Proof.
  revert ys. induction xs as [|x xs IH]; simpl; intros ys H.
  - injection H as <-. reflexivity.
  - destruct (f x) as [y|]; [|discriminate]. simpl in H.
    destruct (comprehension f xs) as [ys'|]; [|discriminate]. simpl in H.
    injection H as <-. simpl. rewrite (IH ys' eq_refl). reflexivity.
Qed.

Lemma zip3_columns (a : list string) (b c : list Z) :
  List.length a = List.length b -> List.length b = List.length c ->
  map MonthLabel (zip3 a b c) = a /\
  map TotalSales (zip3 a b c) = b /\
  map RestaurantCount (zip3 a b c) = c.
Proof.
  revert b c. induction a as [|x a IH]; intros [|y b] [|z c] H1 H2;
    try discriminate; simpl; [auto|].
  injection H1 as H1. injection H2 as H2.
  destruct (IH b c H1 H2) as (-> & -> & ->). auto.
Qed.

(** The monthly table, when it is built, has its three columns from the
    two grouped series. *)
Lemma monthly_summary_columns (dt : dtype) (df : list Enriched)
  (rows : list MonthlyRow) :
  monthly_summary dt df = Ok rows ->
  comprehension (fun m => list_getitem month_names (py_sub (item dt m) 1))
                (group_keys Z.compare Month df) = Ok (map MonthLabel rows) /\
  map TotalSales rows = map snd (sales_by_month df) /\
  map RestaurantCount rows = map snd (restaurants_by_month df).
Proof.
  unfold monthly_summary.
  destruct (month_series_keys df) as (E1 & E2). rewrite E1.
  destruct (comprehension _ (group_keys Z.compare Month df)) as [labels|] eqn:E;
    [|discriminate].
  simpl. intros [= <-].
  apply comprehension_length in E.
  destruct (zip3_columns labels (map snd (sales_by_month df))
              (map snd (restaurants_by_month df))) as (-> & -> & ->).
  - rewrite length_map, <- (length_map fst), E1. assumption.
  - rewrite !length_map, <- (length_map fst (sales_by_month df)),
      <- (length_map fst (restaurants_by_month df)), E1, E2. reflexivity.
  - auto.
Qed.

Lemma month_dtype_int (adf : list Transaction) :
  month_dtype adf = int32 <-> forall t, In t adf -> t_Date t <> None.
Proof.
  unfold month_dtype.
  destruct (forallb _ adf) eqn:E.
  - split; [|reflexivity]. intros _ t Ht. rewrite forallb_forall in E.
    specialize (E t Ht). destruct (t_Date t); [discriminate|discriminate].
  - split; [discriminate|]. intros H. exfalso.
    assert (T : forallb (fun t => match t_Date t with
                                  | Some _ => true | None => false end) adf
                = true).
    { apply forallb_forall. intros t Ht. specialize (H t Ht).
      destruct (t_Date t); [reflexivity|congruence]. }
    congruence.
Qed.

Lemma month_dtype_float (adf : list Transaction) :
  (exists t, In t adf /\ t_Date t = None) -> month_dtype adf = float64.
Proof.
  intros (t & Ht & E). destruct (month_dtype adf) eqn:D; [|reflexivity].
  destruct (proj1 (month_dtype_int adf) D t Ht E).
Qed.

(** ** Facts about the sorted customer tables *)

Lemma zsum_perm (l l' : list Z) : Permutation l l' -> zsum l = zsum l'.
Proof.
  induction 1 as [|x l l' P IH|x y l|l l' l'' P1 IH1 P2 IH2]; simpl; lia.
Qed.

Lemma sort_values_total (sort_values : list CustomerTotal -> list CustomerTotal)
  (l : list CustomerTotal) :
  valid_sort_values sort_values ->
  grand_total (sort_values l) = grand_total l.
Proof.
  intros H. unfold grand_total. apply zsum_perm, Permutation_map, H.
Qed.

Lemma sort_values_nil (sort_values : list CustomerTotal -> list CustomerTotal)
  (l : list CustomerTotal) :
  valid_sort_values sort_values ->
  sort_values l = [] <-> l = [].
Proof.
  intros H. destruct (H l) as (P & _). split; intros E.
  - rewrite E in P. apply Permutation_nil, P.
  - subst. apply Permutation_nil, Permutation_sym, P.
Qed.

Lemma sort_values_In (sort_values : list CustomerTotal -> list CustomerTotal)
  (l : list CustomerTotal) (x : CustomerTotal) :
  valid_sort_values sort_values ->
  In x (sort_values l) <-> In x l.
Proof.
  intros H. destruct (H l) as (P & _).
  split; apply Permutation_in; [|apply Permutation_sym]; assumption.
Qed.

Lemma insert_desc_perm (x : CustomerTotal) (l : list CustomerTotal) :
  Permutation (insert_desc x l) (x :: l).
Proof.
  induction l as [|y l IH]; simpl; [reflexivity|].
  destruct (TotalCustomers y <=? TotalCustomers x); [reflexivity|].
  rewrite IH. apply perm_swap.
Qed.

Lemma insertion_sort_desc_perm (l : list CustomerTotal) :
  Permutation (insertion_sort_desc l) l.
Proof.
  induction l as [|x l IH]; simpl; [reflexivity|].
  rewrite insert_desc_perm. constructor. assumption.
Qed.

Lemma insert_desc_sorted (x : CustomerTotal) (l : list CustomerTotal) :
  StronglySorted total_ge l -> StronglySorted total_ge (insert_desc x l).
Proof.
  induction 1 as [|y l Hs IH Hy]; simpl.
  - repeat constructor.
  - destruct (Z.leb_spec (TotalCustomers y) (TotalCustomers x)) as [Hle|Hgt].
    + constructor; [constructor; assumption|].
      rewrite Forall_forall in *. intros z [<-|Hz]; [exact Hle|].
      specialize (Hy z Hz). unfold total_ge in *. lia.
    + constructor; [assumption|].
      rewrite Forall_forall in *. intros z Hz.
      apply (Permutation_in _ (insert_desc_perm x l)) in Hz.
      destruct Hz as [<-|Hz]; [unfold total_ge; lia|apply Hy, Hz].
Qed.

Lemma insertion_sort_desc_valid : valid_sort_values insertion_sort_desc.
Proof.
  intros l. split; [apply insertion_sort_desc_perm|].
  induction l as [|x l IH]; simpl; [constructor|].
  apply insert_desc_sorted, IH.
Qed.


Lemma customers_grouped_total (col : Enriched -> option string)
  (df : list Enriched) :
  grand_total (customers_grouped col df)
  = sum_skipna (map Customers (filter (fun r => notnull (col r)) df)).
Proof.
  unfold grand_total, customers_grouped. rewrite map_map. simpl.
  apply (groupby_sums_total String_as_OT.compare String_as_OT.lt
           String_as_OT.compare_spec String_as_OT.lt_strorder).
Qed.

Lemma customers_grouped_drop_null (col : Enriched -> option string)
  (a b : list Enriched) (r : Enriched) :
  col r = None ->
  customers_grouped col (a ++ r :: b) = customers_grouped col (a ++ b).
Proof.
  intros H. unfold customers_grouped.
  rewrite (groupby_drop_null String_as_OT.compare col a b r H). reflexivity.
Qed.

Lemma dayfirst_cell_valid : valid_datetime dayfirst_cell.
Proof.
  intros s d. unfold dayfirst_cell.
  destruct (decimal_cell (substring 0 2 s)) as [dd|]; [|discriminate].
  destruct (decimal_cell (substring 3 2 s)) as [mm|]; [|discriminate].
  destruct (decimal_cell (substring 6 4 s)) as [yy|]; [|discriminate].
  match goal with |- (if ?c then _ else _) = _ -> _ => destruct c eqn:E end;
    [|discriminate].
  intros [= <-]. simpl.
  repeat (apply andb_true_iff in E; destruct E as [E ?]). lia.
Qed.

Lemma filtered_months_valid (to_numeric : string -> option Z)
  (to_datetime : string -> option date)
  (actuals : list RawTransaction) (locs : list Location)
  (sel : FilterSelection) (m : Z) :
  valid_datetime to_datetime ->
  In m (group_keys Z.compare Month
          (filtered_df sel (merged_df to_numeric to_datetime actuals locs))) ->
  1 <= m <= 12.
Proof.
  intros Hv Hm.
  apply (group_keys_In Z.compare Z.lt Z.compare_spec Z.lt_strorder) in Hm.
  destruct Hm as (r & Hr & Hk).
  apply filtered_df_month in Hr. destruct Hr as (d & _ & HM & s & Hs).
  rewrite HM in Hk. injection Hk as <-. eapply Hv, Hs.
Qed.

Lemma col_all_null (col : list (option Z)) :
  (forall c, In c col -> c = None) ->
  col_min col = None /\ col_max col = None.
Proof.
  induction col as [|c col IH]; simpl; intros H; [split; reflexivity|].
  rewrite (H c) by auto. apply IH. auto.
Qed.

(** ** The filter engine: year range and facets *)

(** C6: a row goes through the year filter exactly when its Year is not
    null and lies between the two bounds, both included; a row whose Date
    did not parse has a null Year and is in neither the year-filtered
    frame nor the final filtered frame. *)
Theorem year_filter_inclusive (to_numeric : string -> option Z)
  (to_datetime : string -> option date)
  (actuals : list RawTransaction) (locs : list Location) (range : Z * Z) :
  let merged := merged_df to_numeric to_datetime actuals locs in
  year_range_filter range merged = filter (within_years range) merged /\
  (forall r, In r (year_range_filter range merged) <->
             In r merged /\
             exists y, Year r = Some y /\ fst range <= y <= snd range) /\
  (forall t r, In t actuals -> to_datetime (raw_Date t) = None ->
               In r (merge_row locs (convert to_numeric to_datetime t)) ->
               In r merged /\ Year r = None /\
               ~ In r (year_range_filter range merged) /\
               forall sel, ~ In r (filtered_df sel merged)).
Proof.
  intros merged. split; [|split].
  - unfold year_range_filter, boolean_index. apply filter_ext.
    intros r. unfold year_mask, within_years, cell_ge, cell_le.
    destruct (Year r); reflexivity.
  - intros r. unfold year_range_filter, boolean_index.
    rewrite filter_In, year_mask_iff. reflexivity.
  - intros t r Ht Hd Hr.
    assert (Hin : In r merged).
    { unfold merged, merged_df, load_data, merge. simpl.
      apply in_flat_map. exists (convert to_numeric to_datetime t).
      split; [apply in_map, Ht|assumption]. }
    assert (Hy : Year r = None).
    { apply merge_row_fields in Hr. destruct Hr as (_ & _ & _ & _ & HY & _).
      rewrite HY. simpl. rewrite Hd. reflexivity. }
    split; [assumption|]. split; [assumption|]. split.
    + unfold year_range_filter, boolean_index.
      rewrite filter_In, year_mask_iff. intros (_ & y & E & _). congruence.
    + intros sel H. apply filtered_df_year in H.
      destruct H as (_ & y & E & _). congruence.
Qed.

Lemma year_filter_inclusive_witness :
  In undated_row
     (merged_df decimal_cell dayfirst_cell mixed_actuals scenario_locations) /\
  Year undated_row = None /\
  ~ In undated_row
      (year_range_filter (2023, 2023)
         (merged_df decimal_cell dayfirst_cell mixed_actuals scenario_locations)) /\
  forall sel,
    ~ In undated_row
        (filtered_df sel
           (merged_df decimal_cell dayfirst_cell mixed_actuals
                      scenario_locations)).
Proof.
  destruct (year_filter_inclusive decimal_cell dayfirst_cell mixed_actuals
              scenario_locations (2023, 2023)) as (_ & _ & H).
  apply (H (mkRaw (Some "R2") "2023-13-45" "200" "5") undated_row).
  - right. left. reflexivity.
  - reflexivity.
  - left. reflexivity.
Defined.

(** C3: when the country, city and restaurant selections are all empty,
    the filtered frame is the input restricted by the year range alone,
    rows in input order. *)
Theorem empty_selection_no_facet_filter (sel : FilterSelection)
  (merged : list Enriched) :
  selected_countries sel = [] ->
  selected_cities sel = [] ->
  selected_restaurants sel = [] ->
  filtered_df sel merged = filter (within_years (selected_year_range sel)) merged.
Proof.
  intros Hc Hci Hr. unfold filtered_df. rewrite Hc, Hci, Hr.
  rewrite !facet_filter_empty.
  unfold year_range_filter, boolean_index. apply filter_ext.
  intros r. unfold year_mask, within_years, cell_ge, cell_le.
  destruct (Year r); reflexivity.
Qed.

Lemma empty_selection_no_facet_filter_witness :
  filtered_df year_only_selection scenario_merged
  = filter (within_years (selected_year_range year_only_selection)) scenario_merged.
Proof.
  apply (empty_selection_no_facet_filter year_only_selection scenario_merged);
    reflexivity.
Defined.

(** C7: with a non-empty country selection, every row of the filtered
    frame has a Country that is not null and belongs to the selection. *)
Theorem country_filter_sound (sel : FilterSelection) (merged : list Enriched)
  (r : Enriched) :
  selected_countries sel <> [] ->
  In r (filtered_df sel merged) ->
  exists c, Country r = Some c /\ In c (selected_countries sel).
Proof.
  intros Hne H. unfold filtered_df in H.
  do 2 apply facet_filter_incl in H.
  eapply facet_filter_member; eassumption.
Qed.

Lemma country_filter_sound_witness :
  filtered_df scenario_selection scenario_merged = [france_row] /\
  exists c,
    Country france_row = Some c /\ In c (selected_countries scenario_selection).
Proof.
  split; [reflexivity|].
  apply (country_filter_sound scenario_selection scenario_merged).
  - simpl. discriminate.
  - vm_compute. left. reflexivity.
Defined.

(** ** Startup *)

(** C9: when no Date cell of the transaction file parses, the Year column
    is all null, the conversion of its minimum to an integer raises, and
    the script stops there: no filtered frame and no table is produced. *)
Theorem all_dates_unparseable_aborts
  (sort_values : list CustomerTotal -> list CustomerTotal)
  (to_numeric : string -> option Z)
  (to_datetime : string -> option date)
  (actuals : list RawTransaction) (locs : list Location)
  (sel : FilterSelection) :
  (forall t, In t actuals -> to_datetime (raw_Date t) = None) ->
  year_bounds (merged_df to_numeric to_datetime actuals locs) = Raise ValueError /\
  dashboard sort_values to_numeric to_datetime actuals locs sel
  = Raise ValueError.
Proof.
  intros H.
  assert (E : year_bounds (merged_df to_numeric to_datetime actuals locs)
              = Raise ValueError).
  { unfold year_bounds.
    destruct (col_all_null
                (map Year (merged_df to_numeric to_datetime actuals locs)))
      as [Hmin _].
    - intros c Hc. apply in_map_iff in Hc. destruct Hc as (r & <- & Hr).
      apply merged_df_origin in Hr.
      destruct Hr as (t & Ht & _ & HD & _ & _ & HY & _).
      rewrite HY, HD, (H t Ht). reflexivity.
    - rewrite Hmin. reflexivity. }
  split; [assumption|]. unfold dashboard. rewrite E. reflexivity.
Qed.

Lemma all_dates_unparseable_aborts_witness :
  year_bounds (merged_df decimal_cell dayfirst_cell undated_actuals
                 scenario_locations) = Raise ValueError /\
  dashboard insertion_sort_desc decimal_cell dayfirst_cell undated_actuals
    scenario_locations scenario_selection = Raise ValueError.
Proof.
  apply (all_dates_unparseable_aborts insertion_sort_desc decimal_cell
           dayfirst_cell
           undated_actuals scenario_locations scenario_selection).
  intros t Ht. simpl in Ht.
  destruct Ht as [<-|[<-|[]]]; reflexivity.
Defined.

(** ** The monthly table *)

Section GroupPartition.
Context {K R : Type}.
Variable cmp : K -> K -> comparison.
Variable klt : K -> K -> Prop.
Hypothesis cmp_spec : forall x y, CompSpec eq klt x y (cmp x y).
Hypothesis klt_strict : StrictOrder klt.
Variable key : R -> option K.




End GroupPartition.


Lemma filtered_month_keys (to_numeric : string -> option Z)
  (to_datetime : string -> option date)
  (actuals : list RawTransaction) (locs : list Location)
  (sel : FilterSelection) :
  filtered_df sel (merged_df to_numeric to_datetime actuals locs) <> [] ->
  group_keys Z.compare Month
    (filtered_df sel (merged_df to_numeric to_datetime actuals locs)) <> [].
Proof.
  intros Hne E.
  destruct (filtered_df sel (merged_df to_numeric to_datetime actuals locs))
    as [|r df] eqn:Edf; [congruence|].
  assert (Hr : In r (filtered_df sel
                       (merged_df to_numeric to_datetime actuals locs)))
    by (rewrite Edf; left; reflexivity).
  apply filtered_df_month in Hr. destruct Hr as (d & _ & HM & _).
  assert (Hk : In (month d) (group_keys Z.compare Month (r :: df))).
  { apply (group_keys_In Z.compare Z.lt Z.compare_spec Z.lt_strorder).
    exists r. split; [left; reflexivity|assumption]. }
  rewrite E in Hk. contradiction.
Qed.

Lemma loaded_dtype_float (to_numeric : string -> option Z)
  (to_datetime : string -> option date) (actuals : list RawTransaction) :
  (exists t, In t actuals /\ to_datetime (raw_Date t) = None) ->
  month_dtype (map (convert to_numeric to_datetime) actuals) = float64.
Proof.
  intros (t & Ht & E). apply month_dtype_float.
  exists (convert to_numeric to_datetime t). split; [apply in_map, Ht|].
  simpl. assumption.
Qed.

Lemma loaded_dtype_int (to_numeric : string -> option Z)
  (to_datetime : string -> option date) (actuals : list RawTransaction) :
  (forall t, In t actuals -> to_datetime (raw_Date t) <> None) ->
  month_dtype (map (convert to_numeric to_datetime) actuals) = int32.
Proof.
  intros H. apply month_dtype_int. intros t' Ht'.
  apply in_map_iff in Ht'. destruct Ht' as (t & <- & Ht). simpl.
  apply H, Ht.
Qed.




Lemma monthly_labels_float (to_numeric : string -> option Z)
  (to_datetime : string -> option date)
  (actuals : list RawTransaction) (locs : list Location)
  (sel : FilterSelection) :
  (exists t, In t actuals /\ to_datetime (raw_Date t) = None) ->
  filtered_df sel (merged_df to_numeric to_datetime actuals locs) <> [] ->
  monthly_summary
    (month_dtype (map (convert to_numeric to_datetime) actuals))
    (filtered_df sel (merged_df to_numeric to_datetime actuals locs))
  = Raise TypeError.
Proof.
  intros Hnat Hne. rewrite (loaded_dtype_float _ _ _ Hnat).
  apply monthly_summary_float, filtered_month_keys, Hne.
Qed.

(** C5: the code does not keep the claim on a file with a Date that does
    not parse: such a file makes the Month column float64, and as soon as
    the filtered frame has a row the label lookup [month_names[m-1]]
    raises TypeError instead of labelling the months. *)
Theorem monthly_labels_raise_on_unparsed_date (to_numeric : string -> option Z)
  (to_datetime : string -> option date)
  (actuals : list RawTransaction) (locs : list Location)
  (sel : FilterSelection) :
  (exists t, In t actuals /\ to_datetime (raw_Date t) = None) ->
  filtered_df sel (merged_df to_numeric to_datetime actuals locs) <> [] ->
  monthly_summary
    (month_dtype (map (convert to_numeric to_datetime) actuals))
    (filtered_df sel (merged_df to_numeric to_datetime actuals locs))
  = Raise TypeError.
Proof.
  intros Hnat Hne. apply monthly_labels_float; assumption.
Qed.

Lemma monthly_labels_raise_on_unparsed_date_witness :
  dashboard insertion_sort_desc decimal_cell dayfirst_cell
    two_year_undated_actuals scenario_locations both_years_selection
  = Raise TypeError /\
  monthly_summary
    (month_dtype (map (convert decimal_cell dayfirst_cell)
                      two_year_undated_actuals))
    (filtered_df both_years_selection
       (merged_df decimal_cell dayfirst_cell two_year_undated_actuals
                  scenario_locations))
  = Raise TypeError.
Proof.
  split; [reflexivity|].
  apply (monthly_labels_raise_on_unparsed_date decimal_cell dayfirst_cell
           two_year_undated_actuals scenario_locations both_years_selection).
  - exists (mkRaw (Some "R2") "2023-13-45" "80" "4").
    split; [simpl; auto|reflexivity].
  - vm_compute. discriminate.
Defined.

(** X21: when every Date of the file parses, the monthly table is built,
    it has one row for each month that occurs in the filtered frame and
    none for any other month, the rows are in ascending month order, and
    the row of month m carries the m-th entry of Jan..Dec as its
    label. *)
Theorem monthly_rows_when_dates_parse (to_numeric : string -> option Z)
  (to_datetime : string -> option date)
  (actuals : list RawTransaction) (locs : list Location)
  (sel : FilterSelection) :
  valid_datetime to_datetime ->
  (forall t, In t actuals -> to_datetime (raw_Date t) <> None) ->
  let df := filtered_df sel (merged_df to_numeric to_datetime actuals locs) in
  exists months,
    monthly_summary
      (month_dtype (map (convert to_numeric to_datetime) actuals)) df
    = Ok (map (monthly_row df) months) /\
    StronglySorted Z.lt months /\
    (forall m, In m months <-> exists r, In r df /\ Month r = Some m) /\
    (forall m, In m months ->
       1 <= m <= 12 /\
       nth_error month_names (Z.to_nat (m - 1)) = Some (month_label m) /\
       MonthLabel (monthly_row df m) = month_label m).
Proof.
  intros Hv Hall df. exists (group_keys Z.compare Month df).
  assert (Hr : forall m, In m (group_keys Z.compare Month df) -> 1 <= m <= 12)
    by (intros m Hm; eapply filtered_months_valid; eassumption).
  rewrite (loaded_dtype_int _ _ _ Hall).
  split; [apply monthly_summary_ok, Hr|].
  split; [apply (group_keys_sorted Z.compare Z.lt Z.compare_spec Z.lt_strorder)|].
  split; [intros m;
          apply (group_keys_In Z.compare Z.lt Z.compare_spec Z.lt_strorder)|].
  intros m Hm. specialize (Hr m Hm). split; [assumption|].
  split; [|reflexivity].
  assert (E : m = 1 \/ m = 2 \/ m = 3 \/ m = 4 \/ m = 5 \/ m = 6 \/
              m = 7 \/ m = 8 \/ m = 9 \/ m = 10 \/ m = 11 \/ m = 12) by lia.
  repeat (destruct E as [->|E]; [reflexivity|]). subst. reflexivity.
Qed.

Lemma monthly_rows_when_dates_parse_witness :
  exists months,
    monthly_summary
      (month_dtype (map (convert decimal_cell dayfirst_cell) two_year_actuals))
      (filtered_df both_years_selection
         (merged_df decimal_cell dayfirst_cell two_year_actuals
                    scenario_locations))
    = Ok (map (monthly_row
                 (filtered_df both_years_selection
                    (merged_df decimal_cell dayfirst_cell two_year_actuals
                               scenario_locations))) months) /\
    StronglySorted Z.lt months.
Proof.
  destruct (monthly_rows_when_dates_parse decimal_cell dayfirst_cell
              two_year_actuals scenario_locations both_years_selection
              dayfirst_cell_valid) as (months & H1 & H2 & _).
  - intros t Ht. simpl in Ht.
    destruct Ht as [<-|[<-|[<-|[]]]]; vm_compute; discriminate.
  - exists months. split; assumption.
Defined.

Example scenario_monthly_no_facets :
  monthly_summary int32 (filtered_df year_only_selection scenario_merged)
  = Ok [mkMonthlyRow "Jan" 100 1; mkMonthlyRow "Feb" 200 1].
Proof. reflexivity. Qed.

(** ** The customer tables *)

(** C2, as stated, fails: a restaurant whose Country cell is blank in the
    location sheet is counted in the per-restaurant table and in no row of
    the per-country table, however the tables are sorted. *)
Lemma grand_totals_differ :
  customers_grouped Restaurant_Name blank_country_filtered
  = [mkCustomerTotal "Bistro A" 10] /\
  customers_grouped Country blank_country_filtered = [] /\
  forall sort_values, valid_sort_values sort_values ->
    grand_total (customers_by_restaurant sort_values blank_country_filtered) = 10 /\
    grand_total (customers_by_country sort_values blank_country_filtered) = 0 /\
    grand_total (customers_by_country sort_values blank_country_filtered)
    <> grand_total (customers_by_restaurant sort_values blank_country_filtered).
Proof.
  split; [reflexivity|]. split; [reflexivity|].
  intros sort_values Hv. unfold customers_by_restaurant, customers_by_country.
  rewrite !(sort_values_total sort_values _ Hv).
  split; [reflexivity|]. split; [reflexivity|]. vm_compute. discriminate.
Qed.

(** C2, amended: each table's grand total is the sum of Customers over the
    rows whose group key is not null, so the two grand totals agree on
    every frame in which a row has a null Country exactly when it has a
    null Restaurant_Name. *)
Theorem customer_grand_totals_agree
  (sort_values : list CustomerTotal -> list CustomerTotal)
  (df : list Enriched) :
  valid_sort_values sort_values ->
  (forall r, In r df -> (Country r = None <-> Restaurant_Name r = None)) ->
  grand_total (customers_by_country sort_values df)
  = sum_skipna (map Customers (filter (fun r => notnull (Country r)) df)) /\
  grand_total (customers_by_restaurant sort_values df)
  = sum_skipna (map Customers (filter (fun r => notnull (Restaurant_Name r)) df)) /\
  grand_total (customers_by_country sort_values df)
  = grand_total (customers_by_restaurant sort_values df).
Proof.
  intros Hv H. unfold customers_by_country, customers_by_restaurant.
  rewrite !(sort_values_total sort_values _ Hv), !customers_grouped_total.
  split; [reflexivity|]. split; [reflexivity|].
  do 2 f_equal. apply filter_ext_in. intros r Hr.
  specialize (H r Hr). destruct (Country r), (Restaurant_Name r);
    try reflexivity; exfalso; destruct H as [H1 H2];
    [specialize (H2 eq_refl)|specialize (H1 eq_refl)]; discriminate.
Qed.

Lemma customer_grand_totals_agree_witness :
  grand_total (customers_by_country insertion_sort_desc tie_filtered)
  = grand_total (customers_by_restaurant insertion_sort_desc tie_filtered).
Proof.
  apply (customer_grand_totals_agree insertion_sort_desc tie_filtered).
  - exact insertion_sort_desc_valid.
  - intros r Hr. vm_compute in Hr.
    destruct Hr as [<-|[<-|[]]]; simpl; split; discriminate.
Defined.





(** C10: a row whose Restaurant_Name is null is in no group of the
    per-restaurant table, and a row whose Country is null is in no group
    of the per-country table: the tables are the same with or without the
    row, and a table's grand total is the sum of Customers over the rows
    whose key is not null.  A transaction whose key matches no location
    row is such a row for both tables. *)
Theorem null_group_key_excluded
  (sort_values : list CustomerTotal -> list CustomerTotal)
  (a b : list Enriched) (r : Enriched) :
  (Restaurant_Name r = None ->
   customers_by_restaurant sort_values (a ++ r :: b)
   = customers_by_restaurant sort_values (a ++ b)) /\
  (Country r = None ->
   customers_by_country sort_values (a ++ r :: b)
   = customers_by_country sort_values (a ++ b)) /\
  (valid_sort_values sort_values ->
   forall df,
     grand_total (customers_by_restaurant sort_values df)
     = sum_skipna (map Customers
                     (filter (fun x => notnull (Restaurant_Name x)) df)) /\
     grand_total (customers_by_country sort_values df)
     = sum_skipna (map Customers (filter (fun x => notnull (Country x)) df))) /\
  (forall locs t,
     (forall l, In l locs -> key_eqb (t_Rest_Key t) (l_Rest_Key l) = false) ->
     forall x, In x (merge_row locs t) ->
               Restaurant_Name x = None /\ Country x = None).
Proof.
  split; [|split; [|split]].
  - intros H. unfold customers_by_restaurant.
    rewrite customers_grouped_drop_null by assumption. reflexivity.
  - intros H. unfold customers_by_country.
    rewrite customers_grouped_drop_null by assumption. reflexivity.
  - intros Hv df. unfold customers_by_restaurant, customers_by_country.
    rewrite !(sort_values_total sort_values _ Hv), !customers_grouped_total.
    split; reflexivity.
  - intros locs t H x Hx. rewrite merge_row_unmatched in Hx by assumption.
    destruct Hx as [<-|[]]. split; reflexivity.
Qed.

Lemma null_group_key_excluded_witness :
  filtered_df year_only_selection
    (merged_df decimal_cell dayfirst_cell unmatched_actuals scenario_locations)
  = [hd unmatched_row scenario_merged] ++ unmatched_row :: tl scenario_merged /\
  customers_by_restaurant insertion_sort_desc
    ([hd unmatched_row scenario_merged] ++ unmatched_row :: tl scenario_merged)
  = customers_by_restaurant insertion_sort_desc
      ([hd unmatched_row scenario_merged] ++ tl scenario_merged) /\
  customers_by_country insertion_sort_desc
    ([hd unmatched_row scenario_merged] ++ unmatched_row :: tl scenario_merged)
  = customers_by_country insertion_sort_desc
      ([hd unmatched_row scenario_merged] ++ tl scenario_merged).
Proof.
  split; [reflexivity|].
  destruct (null_group_key_excluded insertion_sort_desc
              [hd unmatched_row scenario_merged]
              (tl scenario_merged) unmatched_row) as (H1 & H2 & _).
  split; [apply H1|apply H2]; reflexivity.
Defined.

(** ** Null cells in the monthly table *)

Lemma series_get_map (f : Z -> Z) (m : Z) (ks : list Z) :
  In m ks -> series_get m (map (fun k => (k, f k)) ks) = Some (f m).
Proof.
  induction ks as [|k ks IH]; simpl; [tauto|].
  intros H. destruct (Z.eqb_spec k m) as [->|Hne]; [reflexivity|].
  apply IH. destruct H; [contradiction|assumption].
Qed.

Lemma dropna_app {A : Type} (a b : list (option A)) :
  dropna (a ++ b) = dropna a ++ dropna b.
Proof.
  induction a as [|[v|] a IH]; simpl; rewrite ?IH; reflexivity.
Qed.

Lemma existsb_app_cons (s k : string) (a b : list string) :
  existsb (String.eqb s) (a ++ k :: b)
  = String.eqb s k || existsb (String.eqb s) (a ++ b).
Proof.
  rewrite !existsb_app. simpl.
  destruct (existsb (String.eqb s) a), (String.eqb s k); reflexivity.
Qed.

(** One more occurrence of a key adds one to the number of distinct keys
    exactly when the key is not there already. *)
Lemma unique_length_insert (k : string) (a b : list string) :
  List.length (unique (a ++ k :: b))
  = if existsb (String.eqb k) (a ++ b) then List.length (unique (a ++ b))
    else S (List.length (unique (a ++ b))).
Proof.
  induction a as [|s a IH]; simpl.
  - destruct (existsb (String.eqb k) b); reflexivity.
  - rewrite existsb_app_cons.
    destruct (String.eqb_spec s k) as [->|Hne]; simpl.
    + rewrite String.eqb_refl. simpl. rewrite IH.
      destruct (existsb (String.eqb k) (a ++ b)); reflexivity.
    + assert (E : String.eqb k s = false)
        by (apply String.eqb_neq; congruence).
      rewrite E. simpl.
      destruct (existsb (String.eqb s) (a ++ b)); simpl; rewrite IH;
        destruct (existsb (String.eqb k) (a ++ b)); reflexivity.
Qed.

Lemma group_rows_month_insert (m : Z) (a b : list Enriched) (r : Enriched) :
  Month r = Some m ->
  group_rows Z.compare Month m (a ++ r :: b)
  = group_rows Z.compare Month m a ++ r :: group_rows Z.compare Month m b.
Proof.
  intros H. unfold group_rows. rewrite filter_app. simpl.
  replace (in_group Z.compare Month m r) with true; [reflexivity|].
  symmetry.
  apply (in_group_iff Z.compare Z.lt Z.compare_spec Z.lt_strorder). assumption.
Qed.

(** C8: a Sales cell that does not parse is loaded as null, with no error;
    in any frame that holds the row, the TotalSales of the row's month is
    the sum over the other rows of that month, and a Rest_Key that is not
    null is counted among the month's distinct keys: RestaurantCount is
    one more than over the other rows unless they already have that key. *)
Theorem unparseable_sales_row (to_numeric : string -> option Z)
  (to_datetime : string -> option date) (locs : list Location)
  (t : RawTransaction) (r : Enriched) (a b : list Enriched) (m : Z) :
  to_numeric (raw_Sales t) = None ->
  In r (merge_row locs (convert to_numeric to_datetime t)) ->
  Month r = Some m ->
  t_Sales (convert to_numeric to_datetime t) = None /\
  Sales r = None /\
  series_get m (sales_by_month (a ++ r :: b))
  = Some (sum_skipna (map Sales (group_rows Z.compare Month m (a ++ b)))) /\
  forall k, Rest_Key r = Some k ->
    In k (month_keys m (a ++ r :: b)) /\
    series_get m (restaurants_by_month (a ++ r :: b))
    = Some (nunique (map Rest_Key (group_rows Z.compare Month m (a ++ b)))
            + if existsb (String.eqb k)
                   (dropna (map Rest_Key (group_rows Z.compare Month m (a ++ b))))
              then 0 else 1).
Proof.
  intros Hs Hr Hm.
  assert (HS : Sales r = None).
  { apply merge_row_fields in Hr. destruct Hr as (_ & _ & -> & _).
    simpl. assumption. }
  assert (Hin : In m (group_keys Z.compare Month (a ++ r :: b))).
  { apply (group_keys_In Z.compare Z.lt Z.compare_spec Z.lt_strorder).
    exists r. split; [apply in_elt|assumption]. }
  split; [simpl; assumption|]. split; [assumption|]. split.
  - unfold sales_by_month, groupby. rewrite map_map. simpl.
    rewrite (series_get_map
               (fun k => sum_skipna (map Sales (group_rows Z.compare Month k
                                                  (a ++ r :: b))))) by assumption.
    f_equal. rewrite group_rows_month_insert by assumption.
    replace (group_rows Z.compare Month m (a ++ b))
      with (group_rows Z.compare Month m a ++ group_rows Z.compare Month m b)
      by (unfold group_rows; rewrite filter_app; reflexivity).
    rewrite !map_app, !sum_skipna_app. simpl. rewrite HS. reflexivity.
  - intros k Hk.
    assert (E : dropna (map Rest_Key (group_rows Z.compare Month m (a ++ r :: b)))
                = dropna (map Rest_Key (group_rows Z.compare Month m a))
                  ++ k :: dropna (map Rest_Key (group_rows Z.compare Month m b))).
    { rewrite group_rows_month_insert by assumption.
      rewrite map_app, dropna_app. simpl. rewrite Hk. reflexivity. }
    assert (E' : dropna (map Rest_Key (group_rows Z.compare Month m (a ++ b)))
                 = dropna (map Rest_Key (group_rows Z.compare Month m a))
                   ++ dropna (map Rest_Key (group_rows Z.compare Month m b))).
    { unfold group_rows. rewrite filter_app, map_app, dropna_app. reflexivity. }
    split.
    + unfold month_keys. rewrite E.
      set (l := _ ++ k :: _).
      assert (Hl : In k l) by (apply in_elt).
      clearbody l. clear - Hl.
      induction l as [|s l IH]; simpl; [contradiction|].
      destruct (existsb (String.eqb s) l) eqn:Ex.
      * apply IH. destruct Hl as [->|Hl]; [|assumption].
        apply existsb_exists in Ex. destruct Ex as (x & Hx & Ex).
        apply String.eqb_eq in Ex. subst. assumption.
      * destruct Hl as [->|Hl]; [left; reflexivity|right; apply IH, Hl].
    + unfold restaurants_by_month, groupby. rewrite map_map. simpl.
      rewrite (series_get_map
                 (fun k0 => nunique (map Rest_Key (group_rows Z.compare Month k0
                                                     (a ++ r :: b)))))
        by assumption.
      f_equal. unfold nunique. rewrite E, E', unique_length_insert.
      destruct (existsb (String.eqb k) _); lia.
Qed.

Lemma unparseable_sales_row_witness :
  decimal_cell "N/A" = None /\
  filtered_df year_only_selection
    (merged_df decimal_cell dayfirst_cell na_sales_actuals scenario_locations)
  = [hd na_sales_row scenario_merged] ++ na_sales_row :: [] /\
  Sales na_sales_row = None /\
  series_get 1 (sales_by_month
                  ([hd na_sales_row scenario_merged] ++ na_sales_row :: []))
  = Some 100 /\
  series_get 1 (restaurants_by_month
                  ([hd na_sales_row scenario_merged] ++ na_sales_row :: []))
  = Some 2.
Proof.
  split; [reflexivity|]. split; [reflexivity|].
  destruct (unparseable_sales_row decimal_cell dayfirst_cell scenario_locations
              (mkRaw (Some "R2") "20/01/2023" "N/A" "5") na_sales_row
              [hd na_sales_row scenario_merged] [] 1)
    as (_ & H1 & H2 & H3).
  - reflexivity.
  - left. reflexivity.
  - reflexivity.
  - split; [exact H1|]. split; [exact H2|].
    destruct (H3 "R2" eq_refl) as (_ & H4). exact H4.
Defined.

(** * Further properties of the script *)

(** ** The left join *)

Lemma to_transaction_enrich (t : Transaction) (c ci rn : option string) :
  to_transaction (enrich t c ci rn) = t.
Proof. destruct t; reflexivity. Qed.

Lemma merge_row_project (locs : list Location) (t : Transaction) :
  map to_transaction (merge_row locs t) = repeat t (copies locs t).
Proof.
  unfold merge_row, copies, matching.
  destruct (filter _ locs) as [|l ms].
  - simpl. rewrite to_transaction_enrich. reflexivity.
  - change (Nat.max 1 (List.length (l :: ms))) with (List.length (l :: ms)).
    induction (l :: ms) as [|l0 ms0 IH]; simpl; [reflexivity|].
    rewrite to_transaction_enrich, IH. reflexivity.
Qed.

Lemma sum_skipna_repeat (c : option Z) (n : nat) :
  sum_skipna (repeat c n) = cell0 c * Z.of_nat n.
Proof.
  induction n as [|n IH]; [simpl; lia|].
  change (repeat c (S n)) with (c :: repeat c n).
  destruct c as [v|]; simpl sum_skipna; rewrite IH; simpl cell0; lia.
Qed.

Lemma merge_project (actuals_df : list Transaction)
  (location_df : list Location) :
  map to_transaction (merge actuals_df location_df)
  = flat_map (fun t => repeat t (copies location_df t)) actuals_df.
Proof.
  unfold merge. induction actuals_df as [|t ts IH]; simpl; [reflexivity|].
  rewrite map_app, merge_row_project, IH. reflexivity.
Qed.

(** X1: the left join keeps every transaction, in file order: a
    transaction gives one merged row per location row with its key, and
    one row when there is none; so no transaction is lost. *)
Theorem merge_rows_per_transaction (actuals_df : list Transaction)
  (location_df : list Location) :
  map to_transaction (merge actuals_df location_df)
  = flat_map (fun t => repeat t (copies location_df t)) actuals_df /\
  (forall t, In t actuals_df <->
             exists r, In r (merge actuals_df location_df) /\
                       to_transaction r = t) /\
  (List.length actuals_df <= List.length (merge actuals_df location_df))%nat.
Proof.
  split; [apply merge_project|]. split.
  - intros t.
    assert (E : (exists r, In r (merge actuals_df location_df) /\
                           to_transaction r = t)
                <-> In t (map to_transaction (merge actuals_df location_df))).
    { rewrite in_map_iff. split; intros (r & H1 & H2); exists r; tauto. }
    rewrite E, merge_project, in_flat_map. split.
    + intros Ht. exists t. split; [assumption|].
      unfold copies. destruct (List.length (matching location_df t));
        left; reflexivity.
    + intros (t' & Ht' & Hr). apply repeat_spec in Hr. subst. assumption.
  - rewrite <- (length_map to_transaction (merge actuals_df location_df)).
    rewrite merge_project.
    induction actuals_df as [|t ts IH]; simpl; [lia|].
    rewrite length_app, repeat_length. unfold copies at 1. lia.
Qed.

(** X2: when no transaction key occurs twice in the location sheet, the
    merged frame has exactly the transactions, one row each, in file
    order. *)
Theorem merge_unique_keys (actuals_df : list Transaction)
  (location_df : list Location) :
  (forall t, In t actuals_df ->
             (List.length (matching location_df t) <= 1)%nat) ->
  map to_transaction (merge actuals_df location_df) = actuals_df /\
  List.length (merge actuals_df location_df) = List.length actuals_df.
Proof.
  intros H.
  assert (E : map to_transaction (merge actuals_df location_df) = actuals_df).
  { unfold merge. induction actuals_df as [|t ts IH]; simpl; [reflexivity|].
    rewrite map_app, merge_row_project.
    rewrite IH by (intros; apply H; right; assumption).
    unfold copies.
    assert (Ht := H t (or_introl eq_refl)).
    replace (Nat.max 1 (List.length (matching location_df t))) with 1%nat by lia.
    reflexivity. }
  split; [assumption|].
  rewrite <- E at 2. rewrite length_map. reflexivity.
Qed.

Lemma merge_unique_keys_witness :
  map to_transaction
      (merge (map (convert decimal_cell dayfirst_cell) scenario_actuals)
             scenario_locations)
  = map (convert decimal_cell dayfirst_cell) scenario_actuals /\
  List.length (merge (map (convert decimal_cell dayfirst_cell) scenario_actuals)
                     scenario_locations)
  = List.length (map (convert decimal_cell dayfirst_cell) scenario_actuals).
Proof.
  apply (merge_unique_keys
           (map (convert decimal_cell dayfirst_cell) scenario_actuals)
           scenario_locations).
  intros t Ht. simpl in Ht.
  destruct Ht as [<-|[<-|[]]]; vm_compute; lia.
Defined.

(** X3: a key listed several times in the location sheet multiplies the
    transaction: over the merged frame, each transaction's Sales and
    Customers count once per matching location row. *)
Theorem merge_totals_with_multiplicity (actuals_df : list Transaction)
  (location_df : list Location) :
  sum_skipna (map Sales (merge actuals_df location_df))
  = zsum (map (fun t => cell0 (t_Sales t) * Z.of_nat (copies location_df t))
              actuals_df) /\
  sum_skipna (map Customers (merge actuals_df location_df))
  = zsum (map (fun t => cell0 (t_Customers t) * Z.of_nat (copies location_df t))
              actuals_df).
Proof.
  assert (ES : forall r, Sales r = t_Sales (to_transaction r)) by reflexivity.
  assert (EC : forall r, Customers r = t_Customers (to_transaction r))
    by reflexivity.
  rewrite (map_ext _ _ ES), (map_ext _ _ EC).
  rewrite <- !(map_map to_transaction), merge_project.
  induction actuals_df as [|t ts IH]; simpl; [split; reflexivity|].
  rewrite !map_app, !sum_skipna_app, !map_repeat, !sum_skipna_repeat.
  destruct IH as [-> ->]. split; reflexivity.
Qed.

(** ** The slider bounds *)

Lemma col_min_none (col : list (option Z)) :
  col_min col = None -> forall c, In c col -> c = None.
Proof.
  induction col as [|c col IH]; simpl; intros H x Hx; [contradiction|].
  destruct c as [v|]; [destruct (col_min col); discriminate|].
  destruct Hx as [<-|Hx]; [reflexivity|apply IH; assumption].
Qed.

Lemma col_max_none (col : list (option Z)) :
  col_max col = None -> forall c, In c col -> c = None.
Proof.
  induction col as [|c col IH]; simpl; intros H x Hx; [contradiction|].
  destruct c as [v|]; [destruct (col_max col); discriminate|].
  destruct Hx as [<-|Hx]; [reflexivity|apply IH; assumption].
Qed.

Lemma col_min_some (col : list (option Z)) (v : Z) :
  col_min col = Some v ->
  In (Some v) col /\ forall w, In (Some w) col -> v <= w.
Proof.
  revert v. induction col as [|c col IH]; simpl; intros v H; [discriminate|].
  destruct c as [x|]; [destruct (col_min col) as [m|] eqn:E|].
  - injection H as <-. destruct (IH m eq_refl) as (Hin & Hle). split.
    + destruct (Z.min_spec x m) as [[_ ->]|[_ ->]]; [left|right]; auto.
    + intros w [[= <-]|Hw]; [lia|]. specialize (Hle w Hw). lia.
  - injection H as <-. split; [left; reflexivity|].
    intros w [[= <-]|Hw]; [lia|].
    pose proof (col_min_none col E (Some w) Hw). discriminate.
  - destruct (IH v H) as (Hin & Hle). split; [right; assumption|].
    intros w [Hw|Hw]; [discriminate|auto].
Qed.

Lemma col_max_some (col : list (option Z)) (v : Z) :
  col_max col = Some v ->
  In (Some v) col /\ forall w, In (Some w) col -> w <= v.
Proof.
  revert v. induction col as [|c col IH]; simpl; intros v H; [discriminate|].
  destruct c as [x|]; [destruct (col_max col) as [m|] eqn:E|].
  - injection H as <-. destruct (IH m eq_refl) as (Hin & Hle). split.
    + destruct (Z.max_spec x m) as [[_ ->]|[_ ->]]; [right|left]; auto.
    + intros w [[= <-]|Hw]; [lia|]. specialize (Hle w Hw). lia.
  - injection H as <-. split; [left; reflexivity|].
    intros w [[= <-]|Hw]; [lia|].
    pose proof (col_max_none col E (Some w) Hw). discriminate.
  - destruct (IH v H) as (Hin & Hle). split; [right; assumption|].
    intros w [Hw|Hw]; [discriminate|auto].
Qed.

Lemma year_bounds_inv (merged : list Enriched) (range : Z * Z) :
  year_bounds merged = Ok range ->
  col_min (map Year merged) = Some (fst range) /\
  col_max (map Year merged) = Some (snd range).
Proof.
  unfold year_bounds.
  destruct (col_min (map Year merged)) as [lo|]; [|discriminate].
  destruct (col_max (map Year merged)) as [hi|]; [|discriminate].
  simpl. intros [= <-]. split; reflexivity.
Qed.

Lemma year_bounds_cover (merged : list Enriched) (range : Z * Z) :
  year_bounds merged = Ok range ->
  forall r y, In r merged -> Year r = Some y -> fst range <= y <= snd range.
Proof.
  intros H r y Hr Hy. apply year_bounds_inv in H. destruct H as (Hmin & Hmax).
  apply col_min_some in Hmin. apply col_max_some in Hmax.
  assert (Hin : In (Some y) (map Year merged))
    by (rewrite <- Hy; apply in_map, Hr).
  split; [apply Hmin|apply Hmax]; assumption.
Qed.

(** X4: as soon as one row has a Year, the slider bounds are computed
    without error: they are the smallest and the largest Year of the
    merged frame, each attained by a row, and every Year lies between
    them. *)
Theorem year_bounds_ok (merged : list Enriched) :
  (exists r y, In r merged /\ Year r = Some y) ->
  exists lo hi,
    year_bounds merged = Ok (lo, hi) /\ lo <= hi /\
    (exists r, In r merged /\ Year r = Some lo) /\
    (exists r, In r merged /\ Year r = Some hi) /\
    forall r y, In r merged -> Year r = Some y -> lo <= y <= hi.
Proof.
  intros (r0 & y0 & Hr0 & Hy0).
  assert (Hin : In (Some y0) (map Year merged))
    by (rewrite <- Hy0; apply in_map, Hr0).
  destruct (col_min (map Year merged)) as [lo|] eqn:Emin;
    [|pose proof (col_min_none _ Emin _ Hin); discriminate].
  destruct (col_max (map Year merged)) as [hi|] eqn:Emax;
    [|pose proof (col_max_none _ Emax _ Hin); discriminate].
  assert (E : year_bounds merged = Ok (lo, hi))
    by (unfold year_bounds; rewrite Emin, Emax; reflexivity).
  exists lo, hi. split; [assumption|].
  pose proof (year_bounds_cover merged (lo, hi) E) as Hc. simpl in Hc.
  apply col_min_some in Emin. apply col_max_some in Emax.
  destruct Emin as (Hlo & _). destruct Emax as (Hhi & _).
  apply in_map_iff in Hlo. apply in_map_iff in Hhi.
  destruct Hlo as (rl & Hl1 & Hl2). destruct Hhi as (rh & Hh1 & Hh2).
  split; [specialize (Hc r0 y0 Hr0 Hy0); lia|].
  split; [eauto|]. split; [eauto|]. assumption.
Qed.

Lemma year_bounds_ok_witness :
  exists lo hi,
    year_bounds scenario_merged = Ok (lo, hi) /\ lo <= hi /\
    (exists r, In r scenario_merged /\ Year r = Some lo) /\
    (exists r, In r scenario_merged /\ Year r = Some hi) /\
    forall r y, In r scenario_merged -> Year r = Some y -> lo <= y <= hi.
Proof.
  apply (year_bounds_ok scenario_merged).
  exists france_row, 2023. split; [left|]; reflexivity.
Defined.

(** X5: with the slider left at its initial value, the year filter keeps
    exactly the rows that have a Year, in frame order. *)
Theorem full_range_keeps_dated_rows (merged : list Enriched) (range : Z * Z) :
  year_bounds merged = Ok range ->
  year_range_filter range merged = filter (fun r => notnull (Year r)) merged.
Proof.
  intros H. unfold year_range_filter, boolean_index.
  apply filter_ext_in. intros r Hr.
  unfold year_mask, cell_ge, cell_le.
  destruct (Year r) as [y|] eqn:E; [|reflexivity].
  pose proof (year_bounds_cover merged range H r y Hr E). simpl.
  apply andb_true_iff. rewrite !Z.leb_le. lia.
Qed.

Lemma full_range_keeps_dated_rows_witness :
  year_range_filter (2023, 2023)
    (merged_df decimal_cell dayfirst_cell mixed_actuals scenario_locations)
  = filter (fun r => notnull (Year r))
      (merged_df decimal_cell dayfirst_cell mixed_actuals scenario_locations).
Proof.
  apply (full_range_keeps_dated_rows
           (merged_df decimal_cell dayfirst_cell mixed_actuals scenario_locations)
           (2023, 2023)).
  reflexivity.
Defined.

(** ** The multiselect options *)

Lemma dropna_In {A : Type} (x : A) (col : list (option A)) :
  In x (dropna col) <-> In (Some x) col.
Proof.
  induction col as [|[v|] col IH]; simpl.
  - tauto.
  - rewrite IH. split; intros [H|H]; auto; left; congruence.
  - rewrite IH. split; [auto|]. intros [H|H]; [discriminate|assumption].
Qed.

Lemma pd_unique_In (x : string) (l : list string) :
  In x (pd_unique l) <-> In x l.
Proof.
  induction l as [|s l IH]; simpl; [tauto|].
  rewrite filter_In, IH, negb_true_iff, String.eqb_neq.
  destruct (string_dec s x) as [->|Hne]; [tauto|].
  split; [tauto|]. intros [H|H]; [contradiction|]. right. split; congruence.
Qed.

Lemma pd_unique_NoDup (l : list string) : NoDup (pd_unique l).
Proof.
  induction l as [|s l IH]; simpl; constructor.
  - rewrite filter_In, negb_true_iff, String.eqb_neq. tauto.
  - apply NoDup_filter, IH.
Qed.

Lemma insert_asc_In (x y : string) (l : list string) :
  In y (insert_asc x l) <-> y = x \/ In y l.
Proof.
  induction l as [|z l IH]; simpl; [intuition|].
  destruct (String_as_OT.compare z x); simpl; rewrite ?IH; intuition.
Qed.

Lemma py_sorted_In (y : string) (l : list string) :
  In y (py_sorted l) <-> In y l.
Proof.
  induction l as [|x l IH]; simpl; [tauto|].
  rewrite insert_asc_In, IH. intuition.
Qed.

Lemma insert_asc_sorted (x : string) (l : list string) :
  StronglySorted String_as_OT.lt l -> ~ In x l ->
  StronglySorted String_as_OT.lt (insert_asc x l).
Proof.
  induction 1 as [|z l Hs IH Hz]; simpl; intros Hx.
  - repeat constructor.
  - destruct (String_as_OT.compare_spec z x) as [E|L|G].
    + exfalso. apply Hx. left. exact E.
    + constructor; [apply IH; tauto|].
      rewrite Forall_forall in *. intros y Hy.
      apply insert_asc_In in Hy. destruct Hy as [->|Hy]; auto.
    + constructor; [constructor; assumption|].
      constructor; [assumption|].
      rewrite Forall_forall in *. intros y Hy.
      transitivity z; auto.
Qed.

Lemma py_sorted_sorted (l : list string) :
  NoDup l -> StronglySorted String_as_OT.lt (py_sorted l).
Proof.
  induction 1 as [|x l Hx Hnd IH]; simpl; [constructor|].
  apply insert_asc_sorted; [assumption|].
  rewrite py_sorted_In. assumption.
Qed.

Lemma options_In (col : Enriched -> option string) (merged : list Enriched)
  (s : string) :
  In s (options col merged) <-> exists r, In r merged /\ col r = Some s.
Proof.
  unfold options. rewrite py_sorted_In, pd_unique_In, dropna_In, in_map_iff.
  split; intros (r & H1 & H2); exists r; tauto.
Qed.

(** X6: a multiselect offers each value that occurs in its column of the
    merged frame once, never a null, in strictly ascending order. *)
Theorem options_sorted_distinct (col : Enriched -> option string)
  (merged : list Enriched) :
  StronglySorted String_as_OT.lt (options col merged) /\
  NoDup (options col merged) /\
  forall s, In s (options col merged) <->
            exists r, In r merged /\ col r = Some s.
Proof.
  assert (H : StronglySorted String_as_OT.lt (options col merged))
    by apply py_sorted_sorted, pd_unique_NoDup.
  split; [assumption|]. split; [|apply options_In].
  apply (sorted_NoDup String_as_OT.lt String_as_OT.lt_strorder), H.
Qed.

(** ** The filter as one condition *)

Lemma filter_filter {A : Type} (p q : A -> bool) (l : list A) :
  filter p (filter q l) = filter (fun x => q x && p x) l.
Proof.
  induction l as [|x l IH]; simpl; [reflexivity|].
  destruct (q x); simpl; [destruct (p x)|]; rewrite IH; reflexivity.
Qed.

Lemma facet_filter_mask (col : Enriched -> option string)
  (selected : list string) (df : list Enriched) :
  facet_filter col selected df = filter (facet_mask col selected) df.
Proof.
  unfold facet_filter, facet_mask, boolean_index. destruct selected.
  - symmetry. apply filter_all. reflexivity.
  - reflexivity.
Qed.

Lemma filtered_df_mask (sel : FilterSelection) (merged : list Enriched) :
  filtered_df sel merged = filter (selection_mask sel) merged.
Proof.
  unfold filtered_df, year_range_filter, boolean_index.
  rewrite !facet_filter_mask, !filter_filter. apply filter_ext.
  intros r. unfold selection_mask. rewrite ?andb_assoc. reflexivity.
Qed.

Lemma facet_mask_iff (col : Enriched -> option string)
  (selected : list string) (r : Enriched) :
  facet_mask col selected r = true <->
  selected = [] \/ exists s, col r = Some s /\ In s selected.
Proof.
  unfold facet_mask. destruct selected as [|x l].
  - split; auto.
  - rewrite isin_iff. split; [auto|]. intros [H|H]; [discriminate|assumption].
Qed.

Lemma filtered_df_In (sel : FilterSelection) (merged : list Enriched)
  (r : Enriched) :
  In r (filtered_df sel merged) <->
    In r merged /\
    (exists y, Year r = Some y /\
       fst (selected_year_range sel) <= y <= snd (selected_year_range sel)) /\
    (selected_countries sel = [] \/
     exists s, Country r = Some s /\ In s (selected_countries sel)) /\
    (selected_cities sel = [] \/
     exists s, City r = Some s /\ In s (selected_cities sel)) /\
    (selected_restaurants sel = [] \/
     exists s, Restaurant_Name r = Some s /\ In s (selected_restaurants sel)).
Proof.
  rewrite filtered_df_mask, filter_In. unfold selection_mask.
  rewrite !andb_true_iff, year_mask_iff, !facet_mask_iff. tauto.
Qed.

(** X7: the four filter steps amount to one pass over the merged frame
    that keeps, in order, the rows meeting all four conditions: Year in
    range, and for each of country, city and restaurant either nothing
    selected or the row's value among the selected ones. *)
Theorem filtered_df_conjunction (sel : FilterSelection) (merged : list Enriched) :
  filtered_df sel merged = filter (selection_mask sel) merged /\
  forall r, In r (filtered_df sel merged) <->
    In r merged /\
    (exists y, Year r = Some y /\
       fst (selected_year_range sel) <= y <= snd (selected_year_range sel)) /\
    (selected_countries sel = [] \/
     exists s, Country r = Some s /\ In s (selected_countries sel)) /\
    (selected_cities sel = [] \/
     exists s, City r = Some s /\ In s (selected_cities sel)) /\
    (selected_restaurants sel = [] \/
     exists s, Restaurant_Name r = Some s /\ In s (selected_restaurants sel)).
Proof.
  split; [apply filtered_df_mask|]. intros r. apply filtered_df_In.
Qed.

(** X8: before the user touches a widget the dashboard shows the rows
    that have a Year, a Country and a City; a null Country (or City) is
    let through only when the merged frame has no Country (or City) at
    all, so transactions without a matching location row are left out of
    the initial view. *)
Theorem default_view (merged : list Enriched) (sel : FilterSelection) :
  default_selection merged = Ok sel ->
  filtered_df sel merged = filter (default_mask merged) merged.
Proof.
  unfold default_selection. intros H.
  destruct (year_bounds merged) as [range|] eqn:E; [|discriminate].
  simpl in H. injection H as <-.
  rewrite filtered_df_mask. apply filter_ext_in. intros r Hr.
  unfold selection_mask, default_mask. simpl.
  assert (F : forall col, facet_mask col (options col merged) r
                          = notnull (col r) || is_nil (options col merged)).
  { intros col. unfold facet_mask.
    destruct (options col merged) as [|o os] eqn:Eo.
    - simpl. rewrite orb_true_r. reflexivity.
    - simpl is_nil. rewrite orb_false_r. rewrite <- Eo.
      destruct (col r) as [s|] eqn:Ec; [|reflexivity].
      apply isin_iff. exists s. split; [reflexivity|].
      apply options_In. eauto. }
  rewrite !F, andb_true_r. do 2 f_equal.
  unfold year_mask, cell_ge, cell_le.
  destruct (Year r) as [y|] eqn:Ey; [|reflexivity].
  pose proof (year_bounds_cover merged range E r y Hr Ey).
  apply andb_true_iff. rewrite !Z.leb_le. lia.
Qed.

Lemma default_view_witness :
  default_selection
    (merged_df decimal_cell dayfirst_cell unmatched_actuals scenario_locations)
  = Ok (mkSelection (2023, 2023) ["France"; "Spain"] ["Madrid"; "Paris"] []) /\
  filtered_df (mkSelection (2023, 2023) ["France"; "Spain"] ["Madrid"; "Paris"] [])
    (merged_df decimal_cell dayfirst_cell unmatched_actuals scenario_locations)
  = filter (default_mask
              (merged_df decimal_cell dayfirst_cell unmatched_actuals
                         scenario_locations))
      (merged_df decimal_cell dayfirst_cell unmatched_actuals scenario_locations).
Proof.
  split; [reflexivity|].
  apply (default_view
           (merged_df decimal_cell dayfirst_cell unmatched_actuals
                      scenario_locations)).
  reflexivity.
Defined.

(** X9: selecting more never shows less, and selecting nothing shows
    most: enlarging a non-empty country selection keeps every row already
    shown, and so does clearing it. *)
Theorem wider_country_selection (range : Z * Z)
  (countries countries' cities restaurants : list string)
  (merged : list Enriched) (r : Enriched) :
  countries <> [] ->
  incl countries countries' ->
  In r (filtered_df (mkSelection range countries cities restaurants) merged) ->
  In r (filtered_df (mkSelection range countries' cities restaurants) merged) /\
  In r (filtered_df (mkSelection range [] cities restaurants) merged).
Proof.
  intros Hne Hincl H. apply filtered_df_In in H. simpl in H.
  destruct H as (Hin & Hy & Hc & Hci & Hr).
  destruct Hc as [Hc|(s & Hs & Hsel)]; [contradiction|].
  split; apply filtered_df_In; simpl; repeat split; auto.
  right. exists s. split; [assumption|]. apply Hincl, Hsel.
Qed.

Lemma wider_country_selection_witness :
  In france_row
     (filtered_df (mkSelection (2023, 2023) ["France"; "Spain"] [] [])
                  scenario_merged) /\
  In france_row
     (filtered_df (mkSelection (2023, 2023) [] [] []) scenario_merged).
Proof.
  apply (wider_country_selection (2023, 2023) ["France"] ["France"; "Spain"]
           [] [] scenario_merged france_row).
  - discriminate.
  - intros x [<-|[]]. left. reflexivity.
  - left. reflexivity.
Defined.

(** ** What the tables hold *)

Lemma group_keys_nil {K : Type} (cmp : K -> K -> comparison)
  (klt : K -> K -> Prop)
  (cmp_spec : forall x y, CompSpec eq klt x y (cmp x y))
  (klt_strict : StrictOrder klt)
  (key : Enriched -> option K) (df : list Enriched) :
  group_keys cmp key df = [] <-> forall r, In r df -> key r = None.
Proof.
  split.
  - intros E r Hr. destruct (key r) as [k|] eqn:Ek; [|reflexivity].
    assert (H : In k (group_keys cmp key df))
      by (apply (group_keys_In cmp klt cmp_spec klt_strict); eauto).
    rewrite E in H. contradiction.
  - intros H. destruct (group_keys cmp key df) as [|k ks] eqn:E; [reflexivity|].
    assert (Hk : In k (group_keys cmp key df)) by (rewrite E; left; reflexivity).
    apply (group_keys_In cmp klt cmp_spec klt_strict) in Hk.
    destruct Hk as (r & Hr & Hk). rewrite (H r Hr) in Hk. discriminate.
Qed.

Lemma customers_table_nil
  (sort_values : list CustomerTotal -> list CustomerTotal)
  (col : Enriched -> option string) (df : list Enriched) :
  valid_sort_values sort_values ->
  sort_values (customers_grouped col df) = [] <->
  forall r, In r df -> col r = None.
Proof.
  intros Hv. rewrite (sort_values_nil sort_values _ Hv).
  rewrite <- (group_keys_nil String_as_OT.compare String_as_OT.lt
                String_as_OT.compare_spec String_as_OT.lt_strorder col df).
  unfold customers_grouped, groupby. rewrite map_map.
  destruct (group_keys String_as_OT.compare col df); simpl;
    split; congruence.
Qed.

(** X10: a table is empty exactly when no row of the filtered frame has
    the grouping key: in particular an empty filtered frame gives three
    empty tables and no error. *)
Theorem tables_empty_iff
  (sort_values : list CustomerTotal -> list CustomerTotal)
  (month_dtype : dtype) (df : list Enriched) :
  valid_sort_values sort_values ->
  (customers_by_restaurant sort_values df = [] <->
   forall r, In r df -> Restaurant_Name r = None) /\
  (customers_by_country sort_values df = [] <->
   forall r, In r df -> Country r = None) /\
  (monthly_summary month_dtype df = Ok [] <->
   forall r, In r df -> Month r = None).
Proof.
  intros Hv.
  split; [apply customers_table_nil, Hv|].
  split; [apply customers_table_nil, Hv|].
  rewrite <- (group_keys_nil Z.compare Z.lt Z.compare_spec Z.lt_strorder
                Month df).
  split.
  - intros H. apply monthly_summary_columns in H. destruct H as (H & _).
    apply comprehension_length in H. simpl in H.
    destruct (group_keys Z.compare Month df); [reflexivity|discriminate].
  - apply monthly_summary_no_month.
Qed.

Lemma tables_empty_iff_witness :
  (customers_by_restaurant insertion_sort_desc [unmatched_row] = [] <->
   forall r, In r [unmatched_row] -> Restaurant_Name r = None) /\
  (customers_by_country insertion_sort_desc [unmatched_row] = [] <->
   forall r, In r [unmatched_row] -> Country r = None) /\
  (monthly_summary float64 [unmatched_row] = Ok [] <->
   forall r, In r [unmatched_row] -> Month r = None).
Proof.
  apply (tables_empty_iff insertion_sort_desc float64 [unmatched_row]).
  exact insertion_sort_desc_valid.
Defined.

Lemma in_group_isin (col : Enriched -> option string) (k : string)
  (r : Enriched) :
  in_group String_as_OT.compare col k r = isin (col r) [k].
Proof.
  unfold in_group, isin. destruct (col r) as [s|]; [|reflexivity].
  simpl. rewrite orb_false_r.
  destruct (String_as_OT.compare_spec s k) as [E|L|G].
  - symmetry. apply String.eqb_eq. exact E.
  - symmetry. apply String.eqb_neq. intros ->.
    eapply (@irreflexivity _ String_as_OT.lt); [typeclasses eauto|exact L].
  - symmetry. apply String.eqb_neq. intros ->.
    eapply (@irreflexivity _ String_as_OT.lt); [typeclasses eauto|exact G].
Qed.

Lemma customers_grouped_keys (col : Enriched -> option string)
  (df : list Enriched) :
  map GroupKey (customers_grouped col df)
  = group_keys String_as_OT.compare col df.
Proof.
  unfold customers_grouped, groupby. rewrite !map_map. simpl. apply map_id.
Qed.

Lemma customers_table_spec
  (sort_values : list CustomerTotal -> list CustomerTotal)
  (col : Enriched -> option string) (df : list Enriched) :
  valid_sort_values sort_values ->
  NoDup (map GroupKey (sort_values (customers_grouped col df))) /\
  forall k v,
    In (mkCustomerTotal k v) (sort_values (customers_grouped col df)) <->
    (exists r, In r df /\ col r = Some k) /\
    v = sum_skipna (map Customers (filter (fun r => isin (col r) [k]) df)).
Proof.
  intros Hv. split.
  - eapply Permutation_NoDup.
    + apply Permutation_map, Permutation_sym, Hv.
    + rewrite customers_grouped_keys.
      apply (sorted_NoDup String_as_OT.lt String_as_OT.lt_strorder).
      apply (group_keys_sorted String_as_OT.compare String_as_OT.lt
               String_as_OT.compare_spec String_as_OT.lt_strorder).
  - intros k v.
    rewrite (sort_values_In sort_values _ _ Hv).
    unfold customers_grouped, groupby. rewrite map_map. simpl.
    rewrite in_map_iff.
    rewrite <- (group_keys_In String_as_OT.compare String_as_OT.lt
                  String_as_OT.compare_spec String_as_OT.lt_strorder col k df).
    assert (G : forall k', group_rows String_as_OT.compare col k' df
                           = filter (fun r => isin (col r) [k']) df).
    { intros k'. unfold group_rows. apply filter_ext. intros r.
      apply in_group_isin. }
    split.
    + intros (k' & [= <- <-] & Hk'). rewrite G. auto.
    + intros (Hk & ->). exists k. rewrite G. auto.
Qed.

(** X11: each customer table has one row per value of its key column
    that occurs in the filtered frame, no key twice, and the row's total
    is the sum of Customers (nulls skipped) over the rows with that
    value. *)
Theorem customer_tables_rows
  (sort_values : list CustomerTotal -> list CustomerTotal)
  (df : list Enriched) :
  valid_sort_values sort_values ->
  (NoDup (map GroupKey (customers_by_restaurant sort_values df)) /\
   forall k v,
     In (mkCustomerTotal k v) (customers_by_restaurant sort_values df) <->
     (exists r, In r df /\ Restaurant_Name r = Some k) /\
     v = sum_skipna
           (map Customers
                (filter (fun r => isin (Restaurant_Name r) [k]) df))) /\
  (NoDup (map GroupKey (customers_by_country sort_values df)) /\
   forall k v,
     In (mkCustomerTotal k v) (customers_by_country sort_values df) <->
     (exists r, In r df /\ Country r = Some k) /\
     v = sum_skipna
           (map Customers (filter (fun r => isin (Country r) [k]) df))).
Proof.
  intros Hv. split; apply customers_table_spec, Hv.
Qed.

Lemma customer_tables_rows_witness :
  NoDup (map GroupKey (customers_by_restaurant insertion_sort_desc
                         tapas_first_frame)) /\
  NoDup (map GroupKey (customers_by_country insertion_sort_desc
                         tapas_first_frame)).
Proof.
  destruct (customer_tables_rows insertion_sort_desc tapas_first_frame
              insertion_sort_desc_valid) as ((H1 & _) & (H2 & _)).
  split; assumption.
Defined.

(** ** Restaurant counts *)

Lemma unique_In (x : string) (l : list string) :
  In x (unique l) <-> In x l.
Proof.
  induction l as [|s l IH]; simpl; [tauto|].
  destruct (existsb (String.eqb s) l) eqn:E; simpl; rewrite IH.
  - split; [auto|]. intros [<-|H]; [|assumption].
    apply existsb_exists in E. destruct E as (y & Hy & E).
    apply String.eqb_eq in E. subst. assumption.
  - tauto.
Qed.

Lemma unique_NoDup (l : list string) : NoDup (unique l).
Proof.
  induction l as [|s l IH]; simpl; [constructor|].
  destruct (existsb (String.eqb s) l) eqn:E; [assumption|].
  constructor; [|assumption].
  rewrite unique_In. intros H.
  assert (T : existsb (String.eqb s) l = true)
    by (apply existsb_exists; exists s; split;
        [assumption|apply String.eqb_refl]).
  congruence.
Qed.

Lemma unique_length_le (l : list string) :
  (List.length (unique l) <= List.length l)%nat.
Proof.
  induction l as [|s l IH]; simpl; [lia|].
  destruct (existsb (String.eqb s) l); simpl; lia.
Qed.

Lemma dropna_length_le {A : Type} (col : list (option A)) :
  (List.length (dropna col) <= List.length col)%nat.
Proof.
  induction col as [|[v|] col IH]; simpl; lia.
Qed.

Lemma restaurants_by_month_In (df : list Enriched) (m c : Z) :
  In (m, c) (restaurants_by_month df) <->
  In m (group_keys Z.compare Month df) /\
  c = nunique (map Rest_Key (group_rows Z.compare Month m df)).
Proof.
  unfold restaurants_by_month, groupby. rewrite map_map. simpl.
  rewrite in_map_iff. split.
  - intros (k & [= <- <-] & Hk). auto.
  - intros (Hm & ->). exists m. auto.
Qed.

(** X13: the restaurant count of a month lies between 0 and the number
    of filtered rows of that month, and it is 0 exactly when every row
    of the month has a null Rest_Key. *)
Theorem restaurant_count_bounds (df : list Enriched) (m c : Z) :
  In (m, c) (restaurants_by_month df) ->
  0 <= c <= Z.of_nat (List.length (group_rows Z.compare Month m df)) /\
  (c = 0 <-> forall r, In r df -> Month r = Some m -> Rest_Key r = None).
Proof.
  intros H. apply restaurants_by_month_In in H. destruct H as (_ & ->).
  unfold nunique. split.
  - pose proof (unique_length_le
                  (dropna (map Rest_Key (group_rows Z.compare Month m df)))).
    pose proof (dropna_length_le
                  (map Rest_Key (group_rows Z.compare Month m df))).
    rewrite length_map in *. lia.
  - split.
    + intros E r Hr Hm. destruct (Rest_Key r) as [k|] eqn:Ek; [|reflexivity].
      assert (Hin : In k (unique (dropna (map Rest_Key
                            (group_rows Z.compare Month m df))))).
      { rewrite unique_In, dropna_In, <- Ek. apply in_map.
        unfold group_rows. apply filter_In. split; [assumption|].
        apply (in_group_iff Z.compare Z.lt Z.compare_spec Z.lt_strorder).
        assumption. }
      destruct (unique _); [contradiction|]. simpl in E. lia.
    + intros H.
      destruct (unique (dropna (map Rest_Key
                  (group_rows Z.compare Month m df)))) as [|k ks] eqn:E;
        [reflexivity|].
      assert (Hin : In k (unique (dropna (map Rest_Key
                            (group_rows Z.compare Month m df)))))
        by (rewrite E; left; reflexivity).
      rewrite unique_In, dropna_In, in_map_iff in Hin.
      destruct Hin as (r & Hk & Hr). unfold group_rows in Hr.
      apply filter_In in Hr. destruct Hr as (Hr & Hg).
      apply (in_group_iff Z.compare Z.lt Z.compare_spec Z.lt_strorder) in Hg.
      rewrite (H r Hr Hg) in Hk. discriminate.
Qed.

Lemma restaurant_count_bounds_witness :
  0 <= 2 <= Z.of_nat (List.length
                        (group_rows Z.compare Month 1
                           [hd na_sales_row scenario_merged; na_sales_row])) /\
  (2 = 0 <->
   forall r, In r [hd na_sales_row scenario_merged; na_sales_row] ->
             Month r = Some 1 -> Rest_Key r = None).
Proof.
  apply (restaurant_count_bounds
           [hd na_sales_row scenario_merged; na_sales_row] 1 2).
  left. reflexivity.
Defined.

(** ** The size of the monthly table *)

Lemma sorted_range_length (l : list Z) :
  StronglySorted Z.lt l ->
  forall lo hi, (forall x, In x l -> lo <= x <= hi) ->
  Z.of_nat (List.length l) <= Z.max 0 (hi - lo + 1).
Proof.
  induction 1 as [|x l Hs IH Hx]; intros lo hi Hr; simpl List.length; [lia|].
  assert (Hx0 := Hr x (or_introl eq_refl)).
  specialize (IH (x + 1) hi).
  rewrite Forall_forall in Hx.
  assert (forall y, In y l -> x + 1 <= y <= hi).
  { intros y Hy. specialize (Hx y Hy).
    specialize (Hr y (or_intror Hy)). lia. }
  specialize (IH H). lia.
Qed.

(** X14: whatever the year range, the monthly table, when it is built,
    has at most twelve rows: the rows of one calendar month are pooled
    over all the years selected. *)
Theorem monthly_at_most_twelve (to_numeric : string -> option Z)
  (to_datetime : string -> option date)
  (actuals : list RawTransaction) (locs : list Location)
  (sel : FilterSelection) (month_dtype : dtype) (rows : list MonthlyRow) :
  valid_datetime to_datetime ->
  monthly_summary month_dtype
    (filtered_df sel (merged_df to_numeric to_datetime actuals locs)) = Ok rows ->
  (List.length rows <= 12)%nat.
Proof.
  intros Hv H.
  set (df := filtered_df sel (merged_df to_numeric to_datetime actuals locs))
    in *.
  assert (Hr : forall m, In m (group_keys Z.compare Month df) -> 1 <= m <= 12)
    by (intros m Hm; eapply filtered_months_valid; eassumption).
  apply monthly_summary_columns in H. destruct H as (H & _).
  apply comprehension_length in H. rewrite length_map in H. rewrite H.
  pose proof (sorted_range_length (group_keys Z.compare Month df)
                (group_keys_sorted Z.compare Z.lt Z.compare_spec
                   Z.lt_strorder Month df) 1 12 Hr).
  lia.
Qed.

Lemma monthly_at_most_twelve_witness :
  (List.length [mkMonthlyRow "Jan" 100 1; mkMonthlyRow "Feb" 200 1;
                mkMonthlyRow "Mar" 150 1] <= 12)%nat.
Proof.
  apply (monthly_at_most_twelve decimal_cell dayfirst_cell two_year_actuals
           scenario_locations both_years_selection int32
           [mkMonthlyRow "Jan" 100 1; mkMonthlyRow "Feb" 200 1;
            mkMonthlyRow "Mar" 150 1]).
  - exact dayfirst_cell_valid.
  - reflexivity.
Defined.

(** ** The chart *)

(** X15: whenever the monthly table is built, the chart is built too and
    draws exactly the table: both traces have the table's month labels on
    the x axis, the bars are its TotalSales column and the line is its
    RestaurantCount column. *)
Theorem fig_sales_draws_table (month_dtype : dtype) (df : list Enriched)
  (rows : list MonthlyRow) :
  monthly_summary month_dtype df = Ok rows ->
  fig_sales month_dtype df
  = Ok (mkTrace (map MonthLabel rows) (map TotalSales rows),
        mkTrace (map MonthLabel rows) (map RestaurantCount rows)).
Proof.
  intros H. apply monthly_summary_columns in H. destruct H as (HL & HS & HC).
  unfold fig_sales. destruct (month_series_keys df) as (-> & ->).
  rewrite HL. simpl. rewrite HS, HC. reflexivity.
Qed.

Lemma fig_sales_draws_table_witness :
  fig_sales int32 (filtered_df year_only_selection scenario_merged)
  = Ok (mkTrace ["Jan"; "Feb"] [100; 200], mkTrace ["Jan"; "Feb"] [1; 1]).
Proof.
  apply (fig_sales_draws_table int32
           (filtered_df year_only_selection scenario_merged)
           [mkMonthlyRow "Jan" 100 1; mkMonthlyRow "Feb" 200 1]).
  reflexivity.
Defined.

(** ** Derived columns and the whole run *)

(** X17: in the merged frame Year and Month are null together, exactly
    when the Date is null; otherwise they are the year and the month of
    the Date. *)
Theorem derived_columns_follow_date (to_numeric : string -> option Z)
  (to_datetime : string -> option date)
  (actuals : list RawTransaction) (locs : list Location) (r : Enriched) :
  In r (merged_df to_numeric to_datetime actuals locs) ->
  (Year r = None <-> Date r = None) /\
  (Month r = None <-> Date r = None) /\
  forall d, Date r = Some d ->
            Year r = Some (year d) /\ Month r = Some (month d).
Proof.
  intros H. apply merged_df_origin in H.
  destruct H as (t & _ & _ & _ & _ & _ & -> & ->).
  destruct (Date r) as [d|]; simpl.
  - split; [split; discriminate|]. split; [split; discriminate|].
    intros d' [= <-]. auto.
  - split; [tauto|]. split; [tauto|]. discriminate.
Qed.

Lemma derived_columns_follow_date_witness :
  (Year undated_row = None <-> Date undated_row = None) /\
  (Month undated_row = None <-> Date undated_row = None) /\
  forall d, Date undated_row = Some d ->
            Year undated_row = Some (year d) /\
            Month undated_row = Some (month d).
Proof.
  apply (derived_columns_follow_date decimal_cell dayfirst_cell mixed_actuals
           scenario_locations undated_row).
  right. left. reflexivity.
Defined.

Lemma merge_keeps (actuals_df : list Transaction) (location_df : list Location)
  (t : Transaction) :
  In t actuals_df ->
  exists r, In r (merge actuals_df location_df) /\ to_transaction r = t.
Proof.
  intros Ht.
  assert (H : In t (map to_transaction (merge actuals_df location_df))).
  { rewrite merge_project, in_flat_map. exists t. split; [assumption|].
    unfold copies. destruct (List.length (matching location_df t));
      left; reflexivity. }
  apply in_map_iff in H. destruct H as (r & H1 & H2). eauto.
Qed.

Lemma with_year_range_id (sel : FilterSelection) :
  with_year_range (selected_year_range sel) sel = sel.
Proof. destruct sel; reflexivity. Qed.

Lemma year_bounds_undated (to_numeric : string -> option Z)
  (to_datetime : string -> option date)
  (actuals : list RawTransaction) (locs : list Location) :
  (forall t, In t actuals -> to_datetime (raw_Date t) = None) ->
  year_bounds (merged_df to_numeric to_datetime actuals locs) = Raise ValueError.
Proof.
  intros H. unfold year_bounds.
  destruct (col_all_null
              (map Year (merged_df to_numeric to_datetime actuals locs)))
    as [Hmin _].
  - intros c Hc. apply in_map_iff in Hc. destruct Hc as (r & <- & Hr).
    apply merged_df_origin in Hr.
    destruct Hr as (t & Ht & _ & HD & _ & _ & HY & _).
    rewrite HY, HD, (H t Ht). reflexivity.
  - rewrite Hmin. reflexivity.
Qed.

(** X18: how a run ends, for every selection.  With no Date that parses
    it stops with ValueError at the year bounds.  Otherwise the bounds
    are two years lo <= hi: when they are equal the slider call raises;
    when lo < hi the run raises TypeError at the month labels if some
    Date of the file did not parse and the filtered frame has a row, and
    in every other case it ends without error with the monthly table and
    the two customer tables of the filtered frame. *)
Theorem dashboard_outcomes
  (sort_values : list CustomerTotal -> list CustomerTotal)
  (to_numeric : string -> option Z)
  (to_datetime : string -> option date)
  (actuals : list RawTransaction) (locs : list Location)
  (sel : FilterSelection) :
  valid_datetime to_datetime ->
  ((forall t, In t actuals -> to_datetime (raw_Date t) = None) ->
   dashboard sort_values to_numeric to_datetime actuals locs sel
   = Raise ValueError) /\
  forall lo hi,
    year_bounds (merged_df to_numeric to_datetime actuals locs) = Ok (lo, hi) ->
    (lo = hi ->
     dashboard sort_values to_numeric to_datetime actuals locs sel
     = Raise StreamlitAPIException) /\
    (lo < hi ->
     (exists t, In t actuals /\ to_datetime (raw_Date t) = None) ->
     filtered_df sel (merged_df to_numeric to_datetime actuals locs) <> [] ->
     dashboard sort_values to_numeric to_datetime actuals locs sel
     = Raise TypeError) /\
    (lo < hi ->
     (forall t, In t actuals -> to_datetime (raw_Date t) <> None) \/
     filtered_df sel (merged_df to_numeric to_datetime actuals locs) = [] ->
     exists ms,
       monthly_summary
         (month_dtype (map (convert to_numeric to_datetime) actuals))
         (filtered_df sel (merged_df to_numeric to_datetime actuals locs))
       = Ok ms /\
       dashboard sort_values to_numeric to_datetime actuals locs sel
       = Ok (mkTables ms
               (customers_by_restaurant sort_values
                  (filtered_df sel
                     (merged_df to_numeric to_datetime actuals locs)))
               (customers_by_country sort_values
                  (filtered_df sel
                     (merged_df to_numeric to_datetime actuals locs))))).
Proof.
  intros Hv. split.
  - intros H. unfold dashboard.
    rewrite (year_bounds_undated to_numeric to_datetime actuals locs H).
    reflexivity.
  - intros lo hi E.
    set (df := filtered_df sel (merged_df to_numeric to_datetime actuals locs)).
    assert (D : forall o,
              lo < hi ->
              monthly_summary
                (month_dtype (map (convert to_numeric to_datetime) actuals)) df
              = o ->
              dashboard sort_values to_numeric to_datetime actuals locs sel
              = (ms <- o ;;
                 Ok (mkTables ms (customers_by_restaurant sort_values df)
                              (customers_by_country sort_values df)))).
    { intros o Hlt Ho. unfold dashboard. rewrite E. cbn [bind fst snd].
      unfold slider. destruct (Z.ltb_spec lo hi) as [_|Hge]; [|lia].
      cbn [bind]. rewrite with_year_range_id.
      change (fst (fst (load_data to_numeric to_datetime actuals locs)))
        with (map (convert to_numeric to_datetime) actuals).
      rewrite <- Ho. reflexivity. }
    split; [|split].
    + intros ->. unfold dashboard. rewrite E. cbn [bind fst snd].
      unfold slider. rewrite Z.ltb_irrefl. reflexivity.
    + intros Hlt Hnat Hne.
      rewrite (D (Raise TypeError) Hlt); [reflexivity|].
      apply monthly_labels_float; assumption.
    + intros Hlt [Hall|Hnil].
      * assert (Hm : forall m, In m (group_keys Z.compare Month df) ->
                               1 <= m <= 12)
          by (intros m Hm; eapply filtered_months_valid; eassumption).
        exists (map (monthly_row df) (group_keys Z.compare Month df)).
        assert (Ho : monthly_summary
                       (month_dtype (map (convert to_numeric to_datetime)
                                         actuals)) df
                     = Ok (map (monthly_row df)
                               (group_keys Z.compare Month df)))
          by (rewrite (loaded_dtype_int _ _ _ Hall);
              apply monthly_summary_ok, Hm).
        split; [exact Ho|]. rewrite (D _ Hlt Ho). reflexivity.
      * exists [].
        assert (Ho : monthly_summary
                       (month_dtype (map (convert to_numeric to_datetime)
                                         actuals)) df = Ok [])
          by (apply monthly_summary_no_month; rewrite Hnil; reflexivity).
        split; [exact Ho|]. rewrite (D _ Hlt Ho). reflexivity.
Qed.

Lemma dashboard_outcomes_witness :
  exists ms,
    monthly_summary
      (month_dtype (map (convert decimal_cell dayfirst_cell) two_year_actuals))
      (filtered_df both_years_selection
         (merged_df decimal_cell dayfirst_cell two_year_actuals
                    scenario_locations)) = Ok ms /\
    dashboard insertion_sort_desc decimal_cell dayfirst_cell two_year_actuals
      scenario_locations both_years_selection
    = Ok (mkTables ms
            (customers_by_restaurant insertion_sort_desc
               (filtered_df both_years_selection
                  (merged_df decimal_cell dayfirst_cell two_year_actuals
                             scenario_locations)))
            (customers_by_country insertion_sort_desc
               (filtered_df both_years_selection
                  (merged_df decimal_cell dayfirst_cell two_year_actuals
                             scenario_locations)))).
Proof.
  destruct (dashboard_outcomes insertion_sort_desc decimal_cell dayfirst_cell
              two_year_actuals scenario_locations both_years_selection
              dayfirst_cell_valid) as (_ & H).
  destruct (H 2023 2024 eq_refl) as (_ & _ & H3).
  apply H3; [lia|]. left. intros t Ht. simpl in Ht.
  destruct Ht as [<-|[<-|[<-|[]]]]; vm_compute; discriminate.
Defined.

Example duplicate_key_doubles :
  sum_skipna
    (map Sales (merged_df decimal_cell dayfirst_cell scenario_actuals
                          duplicate_locations)) = 400 /\
  sum_skipna (map t_Sales (map (convert decimal_cell dayfirst_cell)
                               scenario_actuals)) = 300.
Proof. split; reflexivity. Qed.

(** ** Groups whose cells are all null *)

Lemma sum_skipna_all_null (col : list (option Z)) :
  (forall c, In c col -> c = None) -> sum_skipna col = 0.
Proof.
  induction col as [|c col IH]; simpl; intros H; [reflexivity|].
  rewrite (H c) by auto. apply IH. auto.
Qed.

Lemma sales_by_month_In (df : list Enriched) (m v : Z) :
  In (m, v) (sales_by_month df) <->
  In m (group_keys Z.compare Month df) /\
  v = sum_skipna (map Sales (group_rows Z.compare Month m df)).
Proof.
  unfold sales_by_month, groupby. rewrite map_map. simpl.
  rewrite in_map_iff. split.
  - intros (k & [= <- <-] & Hk). auto.
  - intros (Hm & ->). exists m. auto.
Qed.

(** X19: a group is not dropped for lack of numbers: a restaurant (or
    country) all of whose Customers cells are null still has its row in
    the customer table, with total 0, and a month all of whose Sales
    cells are null still has its entry in the monthly sales, with
    total 0. *)
Theorem all_null_group_totals_zero
  (sort_values : list CustomerTotal -> list CustomerTotal)
  (df : list Enriched) (r0 : Enriched) :
  valid_sort_values sort_values ->
  In r0 df ->
  (forall k, Restaurant_Name r0 = Some k ->
     (forall r, In r df -> Restaurant_Name r = Some k -> Customers r = None) ->
     In (mkCustomerTotal k 0) (customers_by_restaurant sort_values df)) /\
  (forall k, Country r0 = Some k ->
     (forall r, In r df -> Country r = Some k -> Customers r = None) ->
     In (mkCustomerTotal k 0) (customers_by_country sort_values df)) /\
  (forall m, Month r0 = Some m ->
     (forall r, In r df -> Month r = Some m -> Sales r = None) ->
     In (m, 0) (sales_by_month df)).
Proof.
  intros Hv H0.
  assert (C : forall col k, col r0 = Some k ->
            (forall r, In r df -> col r = Some k -> Customers r = None) ->
            In (mkCustomerTotal k 0)
               (sort_values (customers_grouped col df))).
  { intros col k Hk Hn.
    apply (proj2 (customers_table_spec sort_values col df Hv)).
    split; [eauto|].
    symmetry. apply sum_skipna_all_null. intros c Hc.
    apply in_map_iff in Hc. destruct Hc as (r & <- & Hr).
    apply filter_In in Hr. destruct Hr as (Hr & Hi).
    apply isin_iff in Hi. destruct Hi as (s & Hs & [<-|[]]).
    apply Hn; assumption. }
  split; [apply C|]. split; [apply C|].
  intros m Hm Hn. apply sales_by_month_In. split.
  - apply (group_keys_In Z.compare Z.lt Z.compare_spec Z.lt_strorder). eauto.
  - symmetry. apply sum_skipna_all_null. intros c Hc.
    apply in_map_iff in Hc. destruct Hc as (r & <- & Hr).
    unfold group_rows in Hr. apply filter_In in Hr. destruct Hr as (Hr & Hg).
    apply (in_group_iff Z.compare Z.lt Z.compare_spec Z.lt_strorder) in Hg.
    apply Hn; assumption.
Qed.

Lemma all_null_group_totals_zero_witness :
  In (mkCustomerTotal "Tapas B" 0)
     (customers_by_restaurant insertion_sort_desc [null_customers_row]) /\
  In (mkCustomerTotal "Spain" 0)
     (customers_by_country insertion_sort_desc [null_customers_row]) /\
  In (2, 0) (sales_by_month [null_customers_row]).
Proof.
  destruct (all_null_group_totals_zero insertion_sort_desc
              [null_customers_row] null_customers_row)
    as (H1 & H2 & H3);
    [exact insertion_sort_desc_valid|left; reflexivity|].
  split; [|split].
  - apply H1; [reflexivity|]. intros r [<-|[]] _. reflexivity.
  - apply H2; [reflexivity|]. intros r [<-|[]] _. reflexivity.
  - apply H3; [reflexivity|]. intros r [<-|[]] _. reflexivity.
Defined.

(** ** Splitting the year range *)

Lemma sum_filter_split {A : Type} (col : A -> option Z) (p q1 q2 : A -> bool)
  (l : list A) :
  (forall x, In x l -> p x = q1 x || q2 x) ->
  (forall x, In x l -> q1 x && q2 x = false) ->
  sum_skipna (map col (filter p l))
  = sum_skipna (map col (filter q1 l)) + sum_skipna (map col (filter q2 l)).
Proof.
  induction l as [|x l IH]; simpl; intros Hp Hd; [reflexivity|].
  assert (Ep := Hp x (or_introl eq_refl)).
  assert (Ed := Hd x (or_introl eq_refl)).
  assert (E := IH (fun y Hy => Hp y (or_intror Hy))
                  (fun y Hy => Hd y (or_intror Hy))).
  rewrite Ep.
  destruct (q1 x), (q2 x); try discriminate; simpl; rewrite E;
    destruct (col x); lia.
Qed.

(** X20: totals add up over adjacent year ranges: with the same country,
    city and restaurant selection, the Sales and Customers sums of the
    frame filtered to [a, c] are those for [a, b] plus those for
    [b + 1, c]. *)
Theorem year_ranges_add (a b c : Z) (countries cities restaurants : list string)
  (merged : list Enriched) :
  a - 1 <= b <= c ->
  sum_skipna (map Sales
    (filtered_df (mkSelection (a, c) countries cities restaurants) merged))
  = sum_skipna (map Sales
      (filtered_df (mkSelection (a, b) countries cities restaurants) merged))
    + sum_skipna (map Sales
        (filtered_df (mkSelection (b + 1, c) countries cities restaurants) merged))
  /\
  sum_skipna (map Customers
    (filtered_df (mkSelection (a, c) countries cities restaurants) merged))
  = sum_skipna (map Customers
      (filtered_df (mkSelection (a, b) countries cities restaurants) merged))
    + sum_skipna (map Customers
        (filtered_df (mkSelection (b + 1, c) countries cities restaurants) merged)).
Proof.
  intros H. rewrite !filtered_df_mask.
  assert (M : forall r,
    selection_mask (mkSelection (a, c) countries cities restaurants) r
    = selection_mask (mkSelection (a, b) countries cities restaurants) r
      || selection_mask (mkSelection (b + 1, c) countries cities restaurants) r).
  { intros r. unfold selection_mask, year_mask, cell_ge, cell_le. simpl.
    destruct (facet_mask Country countries r), (facet_mask City cities r),
      (facet_mask Restaurant_Name restaurants r);
      rewrite ?andb_false_r, ?andb_true_r; try reflexivity.
    destruct (Year r) as [y|]; [|reflexivity].
    destruct (Z.leb_spec a y), (Z.leb_spec y c), (Z.leb_spec y b),
      (Z.leb_spec (b + 1) y); simpl; try reflexivity; lia. }
  assert (D : forall r,
    selection_mask (mkSelection (a, b) countries cities restaurants) r
    && selection_mask (mkSelection (b + 1, c) countries cities restaurants) r
    = false).
  { intros r.
    destruct (selection_mask (mkSelection (a, b) countries cities restaurants) r
              && selection_mask
                   (mkSelection (b + 1, c) countries cities restaurants) r)
      eqn:E; [|reflexivity].
    exfalso. apply andb_true_iff in E. destruct E as (E1 & E2).
    unfold selection_mask in E1, E2.
    do 3 (apply andb_true_iff in E1; destruct E1 as (E1 & _)).
    do 3 (apply andb_true_iff in E2; destruct E2 as (E2 & _)).
    apply year_mask_iff in E1. apply year_mask_iff in E2.
    destruct E1 as (y & Hy & B1). destruct E2 as (y' & Hy' & B2).
    simpl in B1, B2. rewrite Hy in Hy'. injection Hy' as <-. lia. }
  split; apply sum_filter_split; auto.
Qed.

Lemma year_ranges_add_witness :
  sum_skipna (map Sales
    (filtered_df (mkSelection (2022, 2023) [] [] []) scenario_merged))
  = sum_skipna (map Sales
      (filtered_df (mkSelection (2022, 2022) [] [] []) scenario_merged))
    + sum_skipna (map Sales
        (filtered_df (mkSelection (2022 + 1, 2023) [] [] []) scenario_merged)).
Proof.
  apply (year_ranges_add 2022 2022 2023 [] [] [] scenario_merged). lia.
Defined.
